(** * asar-scan: detection of Electron bundles and of their ASAR protections

    A shallow embedding of the detection engine of the scanner
    ([cmd/asarscan/internal] and the per-application loop and summary table of
    [cmd/asarscan/main.go]) together with the properties its specification
    states about it.

    Go strings and byte slices are both byte sequences.  File contents are
    [list byte]; paths, names, versions and messages are [string].  Go [int]
    is [Z] (the counters of this program stay far below 2^63).  The host
    platform, the file system and the [path/filepath] functions are the
    environment of the program and are passed explicitly.  The [verbose]
    flag only adds progress lines on standard output; it changes no returned
    value, and neither the flag nor the lines are modelled. *)

From Stdlib Require Import List Bool Arith ZArith Lia.
From Stdlib Require Import Strings.String Strings.Ascii Strings.Byte.
From Stdlib Require Import DecimalString.
Import ListNotations.

Local Open Scope string_scope.
Local Open Scope list_scope.

(** ** Byte sequences: package [bytes] *)

Module Bytes.

(** A string literal seen as a byte slice: [[]byte("...")]. *)
Definition lit (s : string) : list byte := list_byte_of_string s.

(** [bytes.HasPrefix]. *)
Fixpoint HasPrefix (s prefix : list byte) {struct prefix} : bool :=
  match prefix, s with
  | [], _ => true
  | _ :: _, [] => false
  | p :: prefix', c :: s' => Byte.eqb c p && HasPrefix s' prefix'
  end.

(** [bytes.Contains]: [sub] occurs in [b] at some offset. *)
Fixpoint Contains (b sub : list byte) : bool :=
  HasPrefix b sub ||
  match b with
  | [] => false
  | _ :: b' => Contains b' sub
  end.

End Bytes.

(** ** Strings: package [strings] *)

Module Strings.

(** [strings.HasSuffix]. *)
Definition HasSuffix (s suffix : string) : bool :=
  (String.length suffix <=? String.length s)%nat &&
  String.eqb
    (substring (String.length s - String.length suffix) (String.length suffix) s)
    suffix.

(** [strings.TrimSuffix]. *)
Definition TrimSuffix (s suffix : string) : string :=
  if HasSuffix s suffix
  then substring 0 (String.length s - String.length suffix) s
  else s.

Definition lowerAscii (c : ascii) : ascii :=
  let n := nat_of_ascii c in
  if ((65 <=? n) && (n <=? 90))%nat then ascii_of_nat (n + 32) else c.

(** [strings.ToLower] on the ASCII letters.  The only use in this program
    tests the result for the ASCII suffix [".node"], and no letter outside
    ASCII lower-cases to one of its bytes. *)
Fixpoint ToLower (s : string) : string :=
  match s with
  | EmptyString => EmptyString
  | String c s' => String (lowerAscii c) (ToLower s')
  end.

End Strings.

(** ** The marker tables of [checkAsarIntegrityWindows] and
       [checkAsarIntegrityMacos] *)

Definition ElectronAsarIntegrityKey : list byte :=
  Bytes.lit "<key>ElectronAsarIntegrity</key>".
Definition hashKey : list byte := Bytes.lit "<key>hash</key>".
Definition algorithmKey : list byte := Bytes.lit "<key>algorithm</key>".

Definition sigOnlyLoadAppFromAsar : list byte := Bytes.lit "OnlyLoadAppFromAsar".
Definition sigOnlyLoadFromAsar : list byte := Bytes.lit "OnlyLoadFromAsar".
Definition sigFuseV1OnlyLoadAppFromAsar : list byte :=
  Bytes.lit "FuseV1Options.OnlyLoadAppFromAsar".

Definition asarIntegritySignatures : list (list byte) :=
  [Bytes.lit "ElectronAsar"; Bytes.lit "Integrity"; Bytes.lit "sha256"].

Definition EnableEmbeddedAsarIntegrityValidation : list byte :=
  Bytes.lit "EnableEmbeddedAsarIntegrityValidation".

(** The loop [for _, sig := range asarIntegritySignatures] of
    [checkAsarIntegrityWindows], threading [matchCount]. *)
Fixpoint countSignatures (sigs : list (list byte)) (content : list byte)
         (matchCount : Z) : Z :=
  match sigs with
  | [] => matchCount
  | sig :: rest =>
      countSignatures rest content
        (if Bytes.Contains content sig then (matchCount + 1)%Z else matchCount)
  end.

(** The value of [matchCount] when [checkAsarIntegrityWindows] compares it
    with the threshold. *)
Definition windowsMatchCount (exeContent : list byte) : Z :=
  let matchCount := countSignatures asarIntegritySignatures exeContent 0%Z in
  if Bytes.Contains exeContent EnableEmbeddedAsarIntegrityValidation
  then (matchCount + 2)%Z
  else matchCount.

(** The loops [for _, sig := range signatures { if Contains { flag = true;
    break } }] over marker spellings, threading the flag. *)
Fixpoint anySignature (sigs : list (list byte)) (content : list byte)
         (flag : bool) : bool :=
  match sigs with
  | [] => flag
  | sig :: rest =>
      if Bytes.Contains content sig then true
      else anySignature rest content flag
  end.

(** ** Regular expressions: the fragment of package [regexp] the program uses

    Every pattern of the program is a sequence of literals, one [\s*] and one
    capturing group [(class+)].  [FindStringSubmatch] has the leftmost-first
    semantics of Go: the leftmost start offset, and at that offset the match a
    greedy backtracking search finds first.  Character classes are ASCII, so
    matching byte by byte agrees with matching rune by rune. *)

Module Regexp.

Inductive item : Type :=
| Lit (bs : list byte)              (* literal text *)
| Star (cls : byte -> bool)         (* cls*, greedy *)
| Group (cls : byte -> bool).       (* (cls+), greedy, capturing *)

Definition Regexp := list item.

Definition inRange (lo hi : N) (b : byte) : bool :=
  (N.leb lo (Byte.to_N b) && N.leb (Byte.to_N b) hi)%bool.

(** [\s]: tab, newline, form feed, carriage return, space. *)
Definition space (b : byte) : bool :=
  let n := Byte.to_N b in
  (N.eqb n 9 || N.eqb n 10 || N.eqb n 12 || N.eqb n 13 || N.eqb n 32)%bool.

(** [[0-9.]]. *)
Definition digitOrDot (b : byte) : bool :=
  (inRange 48 57 b || N.eqb (Byte.to_N b) 46)%bool.

(** The negated class of the double quote: any byte but 0x22. *)
Definition notQuote (b : byte) : bool := negb (N.eqb (Byte.to_N b) 34).

(** The double quote character, as a byte slice. *)
Definition dq : list byte := [x22].

Fixpoint stripPrefix (prefix s : list byte) {struct prefix}
  : option (list byte) :=
  match prefix, s with
  | [], _ => Some s
  | _ :: _, [] => None
  | p :: prefix', c :: s' =>
      if Byte.eqb c p then stripPrefix prefix' s' else None
  end.

Section Backtracking.
Variable R : Type.

(** [cls*] followed by the continuation [k]: longest repetition first. *)
Fixpoint star (cls : byte -> bool) (k : list byte -> option R)
         (s : list byte) : option R :=
  match s with
  | c :: s' =>
      if cls c then
        match star cls k s' with
        | Some r => Some r
        | None => k s
        end
      else k s
  | [] => k []
  end.

(** [(cls* )] with the captured text handed to the continuation. *)
Fixpoint starCapture (cls : byte -> bool)
         (k : list byte -> list byte -> option R)
         (s : list byte) : option R :=
  match s with
  | c :: s' =>
      if cls c then
        match starCapture cls (fun cap rest => k (c :: cap) rest) s' with
        | Some r => Some r
        | None => k [] s
        end
      else k [] s
  | [] => k [] []
  end.

(** [(cls+)]. *)
Definition plusCapture (cls : byte -> bool)
           (k : list byte -> list byte -> option R)
           (s : list byte) : option R :=
  match s with
  | c :: s' =>
      if cls c then starCapture cls (fun cap rest => k (c :: cap) rest) s'
      else None
  | [] => None
  end.
End Backtracking.

Arguments star {R} cls k s.
Arguments starCapture {R} cls k s.
Arguments plusCapture {R} cls k s.

(** Match [re] at the start of [s]: the text of group 1 and the unread
    rest of [s]. *)
Fixpoint matchHere (re : Regexp) (cap : list byte) (s : list byte)
  : option (list byte * list byte) :=
  match re with
  | [] => Some (cap, s)
  | Lit bs :: re' =>
      match stripPrefix bs s with
      | Some s' => matchHere re' cap s'
      | None => None
      end
  | Star cls :: re' => star cls (matchHere re' cap) s
  | Group cls :: re' => plusCapture cls (fun c rest => matchHere re' c rest) s
  end.

(** [re.FindStringSubmatch(s)]: [nil] without a match, otherwise the whole
    match followed by the text of group 1. *)
Fixpoint FindStringSubmatch (re : Regexp) (s : list byte) : list (list byte) :=
  match matchHere re [] s with
  | Some (cap, rest) => [firstn (List.length s - List.length rest) s; cap]
  | None =>
      match s with
      | [] => []
      | _ :: s' => FindStringSubmatch re s'
      end
  end.

End Regexp.

Import Regexp.

(** [versionRegexes] of [isElectronAppMacos]. *)
Definition versionRegexes : list Regexp :=
  [ [Lit (Bytes.lit "<key>ElectronVersion</key>"); Star space;
     Lit (Bytes.lit "<string>"); Group digitOrDot];
    [Lit (Bytes.lit "<key>CFBundleVersion</key>"); Star space;
     Lit (Bytes.lit "<string>"); Group digitOrDot];
    [Lit (Bytes.lit "Electron/"); Group digitOrDot];
    [Lit (Bytes.lit "electron@"); Group digitOrDot];
    [Lit (Bytes.lit "electron" ++ dq ++ Bytes.lit ": " ++ dq);
     Group notQuote; Lit dq];
    [Lit (dq ++ Bytes.lit "electronVersion" ++ dq ++ Bytes.lit ": " ++ dq);
     Group notQuote; Lit dq] ].

(** The two patterns applied to [package.json]: the quoted key [electron]
    (respectively [electronVersion]), a colon, [\s*], and a quoted non-empty
    value without a double quote, which is captured. *)
Definition packageElectronRegex : Regexp :=
  [Lit (dq ++ Bytes.lit "electron" ++ dq ++ Bytes.lit ":"); Star space;
   Lit dq; Group notQuote; Lit dq].

Definition packageElectronVersionRegex : Regexp :=
  [Lit (dq ++ Bytes.lit "electronVersion" ++ dq ++ Bytes.lit ":"); Star space;
   Lit dq; Group notQuote; Lit dq].

(** [Electron/([0-9.]+)], applied to the executable on Windows. *)
Definition electronSlashRegex : Regexp :=
  [Lit (Bytes.lit "Electron/"); Group digitOrDot].

(** [versionPatterns] of [isElectronAppWindows]. *)
Definition versionPatterns : list Regexp :=
  [ [Lit (Bytes.lit "electron@"); Group digitOrDot];
    [Lit (dq ++ Bytes.lit "electron" ++ dq ++ Bytes.lit ": " ++ dq);
     Group notQuote; Lit dq];
    [Lit (dq ++ Bytes.lit "electronVersion" ++ dq ++ Bytes.lit ": " ++ dq);
     Group notQuote; Lit dq] ].

(** The loops [for _, regex := range ... { if len(matches) > 1 { version =
    matches[1]; break } }], threading [version]. *)
Fixpoint versionLoop (regexes : list Regexp) (content : list byte)
         (version : string) : string :=
  match regexes with
  | [] => version
  | re :: rest =>
      match FindStringSubmatch re content with
      | _ :: m1 :: _ => string_of_list_byte m1
      | _ => versionLoop rest content version
      end
  end.

(** ** The environment: host platform, file system, [path/filepath] *)

(** [runtime.GOOS]. *)
Inductive goos : Type :=
| darwin
| windows
| otherOS (name : string).

(** The error of [os.Stat], as far as the program tells errors apart:
    [err == nil], [os.IsNotExist(err)], anything else. *)
Inductive statError : Type :=
| StatNil
| ErrNotExist
| ErrStat.

(** The result of [os.ReadFile]: the content, or the text of the error. *)
Inductive readResult : Type :=
| ReadOk (content : list byte)
| ReadErr (msg : string).

(** [os.FileInfo], as far as the program reads it. *)
Record FileInfo : Type := mkFileInfo {
  Name : string;
  IsDir : bool
}.

(** A file tree as [filepath.Walk] sees it: [os.Lstat] tells files from
    directories or fails ([Broken]); a directory lists its entries in the
    lexical order of [readDirNames], or cannot be listed
    ([UnreadableDir]). *)
#[warnings="-register-all"] Inductive entry : Type :=
| File (name : string)
| Directory (name : string) (children : list entry)
| UnreadableDir (name : string)
| Broken (name : string).

Definition entryName (e : entry) : string :=
  match e with
  | File n | Directory n _ | UnreadableDir n | Broken n => n
  end.

Definition entryIsDir (e : entry) : bool :=
  match e with
  | Directory _ _ | UnreadableDir _ => true
  | File _ | Broken _ => false
  end.

(** The functions of [path/filepath] the program calls. *)
Record Filepath : Type := mkFilepath {
  Join : list string -> string;
  Base : string -> string;
  Dir : string -> string
}.

Record Host : Type := mkHost {
  GOOS : goos;
  Stat : string -> statError;
  ReadFile : string -> readResult;
  (** the tree [filepath.Walk] finds at a root *)
  Tree : string -> entry
}.

(** ** [AppResult] *)

Record AppResult : Type := mkAppResult {
  Path : string;
  IsElectron : bool;
  Version : string;
  HasAsarFile : bool;
  AsarIntegrity : bool;
  OnlyLoadFromAsar : bool;
  NodeFiles : list string;
  IntegrityError : string
}.

(** Assignments to one field of a result. *)
Definition setIsElectron (v : bool) (r : AppResult) : AppResult :=
  mkAppResult (Path r) v (Version r) (HasAsarFile r) (AsarIntegrity r)
              (OnlyLoadFromAsar r) (NodeFiles r) (IntegrityError r).
Definition setVersion (v : string) (r : AppResult) : AppResult :=
  mkAppResult (Path r) (IsElectron r) v (HasAsarFile r) (AsarIntegrity r)
              (OnlyLoadFromAsar r) (NodeFiles r) (IntegrityError r).
Definition setHasAsarFile (v : bool) (r : AppResult) : AppResult :=
  mkAppResult (Path r) (IsElectron r) (Version r) v (AsarIntegrity r)
              (OnlyLoadFromAsar r) (NodeFiles r) (IntegrityError r).
Definition setAsarIntegrity (v : bool) (r : AppResult) : AppResult :=
  mkAppResult (Path r) (IsElectron r) (Version r) (HasAsarFile r) v
              (OnlyLoadFromAsar r) (NodeFiles r) (IntegrityError r).
Definition setOnlyLoadFromAsar (v : bool) (r : AppResult) : AppResult :=
  mkAppResult (Path r) (IsElectron r) (Version r) (HasAsarFile r)
              (AsarIntegrity r) v (NodeFiles r) (IntegrityError r).
Definition setNodeFiles (v : list string) (r : AppResult) : AppResult :=
  mkAppResult (Path r) (IsElectron r) (Version r) (HasAsarFile r)
              (AsarIntegrity r) (OnlyLoadFromAsar r) v (IntegrityError r).
Definition setIntegrityError (v : string) (r : AppResult) : AppResult :=
  mkAppResult (Path r) (IsElectron r) (Version r) (HasAsarFile r)
              (AsarIntegrity r) (OnlyLoadFromAsar r) (NodeFiles r) v.

(** ** [filepath.Walk] *)

(** What a [WalkFunc] returns: [nil], [filepath.SkipDir], [filepath.SkipAll]
    or another error. *)
Inductive walkError : Type :=
| WalkNil
| SkipDir
| SkipAll
| WalkErr (msg : string).

(** What a [WalkFunc] is called with besides the path: the [FileInfo] with a
    [nil] error, or an error (with the [FileInfo] of the directory that could
    not be listed, or none when [Lstat] failed). *)
Inductive visit : Type :=
| Visit (info : FileInfo)
| Failed (info : option FileInfo).

Section Walk.
Variable fp : Filepath.
Variable St : Type.

(** A [WalkFunc] closure; the variables it captures are the state [St]. *)
Definition WalkFunc : Type := string -> visit -> St -> St * walkError.

Variable walkFn : WalkFunc.

(** [walk] of [path/filepath] (Go 1.21, the version of the build): in a
    directory only [SkipDir] is swallowed, for a directory or for an entry
    [Lstat] fails on; [SkipAll] and any other error end the walk. *)
Fixpoint walk (path : string) (e : entry) (st : St) : St * walkError :=
  match e with
  | File name => walkFn path (Visit (mkFileInfo name false)) st
  | Broken _ => walkFn path (Failed None) st
  | UnreadableDir name => walkFn path (Failed (Some (mkFileInfo name true))) st
  | Directory name children =>
      let (st1, err1) := walkFn path (Visit (mkFileInfo name true)) st in
      match err1 with
      | WalkNil =>
          (fix loop (names : list entry) (st : St) : St * walkError :=
             match names with
             | [] => (st, WalkNil)
             | c :: rest =>
                 let filename := Join fp [path; entryName c] in
                 match c with
                 | Broken _ =>
                     let (st', err) := walkFn filename (Failed None) st in
                     match err with
                     | WalkNil | SkipDir => loop rest st'
                     | SkipAll | WalkErr _ => (st', err)
                     end
                 | _ =>
                     let (st', err) := walk filename c st in
                     match err with
                     | WalkNil => loop rest st'
                     | SkipDir =>
                         if entryIsDir c then loop rest st' else (st', err)
                     | SkipAll | WalkErr _ => (st', err)
                     end
                 end
             end) children st1
      | _ => (st1, err1)
      end
  end.

(** [filepath.Walk]. *)
Definition Walk (root : string) (tree : entry) (st : St) : St * walkError :=
  let (st', err) := walk root tree st in
  match err with
  | SkipDir | SkipAll => (st', WalkNil)
  | _ => (st', err)
  end.
End Walk.

Arguments walk fp {St} walkFn path e st.
Arguments Walk fp {St} walkFn root tree st.

(** ** [electron_detector.go] *)

Module Detector.
Section Detector.
Variable fp : Filepath.
Variable h : Host.

(** The executable of a Windows candidate: the path itself when it ends in
    [.exe], otherwise [<dir>/<base>.exe]. *)
Definition exePathOf (appPath : string) : string :=
  if Strings.HasSuffix appPath ".exe" then appPath
  else Join fp [appPath; (Base fp appPath ++ ".exe")%string].

(** [matches[1]] when [len(matches) > 1], otherwise the current value. *)
Definition submatchOr (matches : list (list byte)) (version : string) : string :=
  match matches with
  | _ :: m1 :: _ => string_of_list_byte m1
  | _ => version
  end.

Definition isElectronAppMacos (appPath : string) : bool * string * option string :=
  if negb (Strings.HasSuffix appPath ".app") then (false, "", None)
  else
    let plistPath := Join fp [appPath; "Contents"; "Info.plist"] in
    match Stat h plistPath with
    | ErrNotExist => (false, "", None)
    | _ =>
        let frameworkPath :=
          Join fp [appPath; "Contents"; "Frameworks";
                   "Electron Framework.framework"] in
        match Stat h frameworkPath with
        | StatNil =>
            let version := "unknown" in
            let version :=
              match ReadFile h plistPath with
              | ReadOk plistContent =>
                  let version := versionLoop versionRegexes plistContent version in
                  let frameworkPlistPath :=
                    Join fp [frameworkPath; "Resources"; "Info.plist"] in
                  match Stat h frameworkPlistPath with
                  | StatNil =>
                      match ReadFile h frameworkPlistPath with
                      | ReadOk frameworkPlist =>
                          versionLoop versionRegexes frameworkPlist version
                      | ReadErr _ => version
                      end
                  | _ => version
                  end
              | ReadErr _ => version
              end in
            (true, version, None)
        | _ =>
            let asarPath := Join fp [appPath; "Contents"; "Resources"; "app.asar"] in
            match Stat h asarPath with
            | StatNil =>
                let version := "unknown" in
                let packageJsonPath :=
                  Join fp [appPath; "Contents"; "Resources"; "app"; "package.json"] in
                let version :=
                  match Stat h packageJsonPath with
                  | StatNil =>
                      match ReadFile h packageJsonPath with
                      | ReadOk packageContent =>
                          submatchOr
                            (FindStringSubmatch packageElectronRegex packageContent)
                            version
                      | ReadErr _ => version
                      end
                  | _ => version
                  end in
                (true, version, None)
            | _ => (false, "", None)
            end
        end
    end.

(** The version search of [isElectronAppWindows] in the executable, when
    there is no [package.json]. *)
Definition versionFromExe (exeContent : list byte) (version : string) : string :=
  match FindStringSubmatch electronSlashRegex exeContent with
  | _ :: m1 :: _ => string_of_list_byte m1
  | _ => versionLoop versionPatterns exeContent version
  end.

Definition isElectronAppWindows (appPath : string) : bool * string * option string :=
  let exePath := exePathOf appPath in
  match Stat h exePath with
  | ErrNotExist => (false, "", None)
  | _ =>
      let resourcesDir := Join fp [Dir fp exePath; "resources"] in
      match Stat h resourcesDir with
      | ErrNotExist => (false, "", None)
      | _ =>
          let asarPath := Join fp [resourcesDir; "app.asar"] in
          match Stat h asarPath with
          | StatNil =>
              let version := "unknown" in
              let packageJsonPath := Join fp [resourcesDir; "app"; "package.json"] in
              let version :=
                match Stat h packageJsonPath with
                | StatNil =>
                    match ReadFile h packageJsonPath with
                    | ReadOk packageContent =>
                        match FindStringSubmatch packageElectronRegex packageContent with
                        | _ :: m1 :: _ => string_of_list_byte m1
                        | _ =>
                            submatchOr
                              (FindStringSubmatch packageElectronVersionRegex
                                                  packageContent)
                              version
                        end
                    | ReadErr _ => version
                    end
                | _ =>
                    match ReadFile h exePath with
                    | ReadOk exeContent => versionFromExe exeContent version
                    | ReadErr _ => version
                    end
                end in
              (true, version, None)
          | _ =>
              let electronAsarPath := Join fp [resourcesDir; "electron.asar"] in
              match Stat h electronAsarPath with
              | StatNil =>
                  let version := "unknown" in
                  let version :=
                    match ReadFile h exePath with
                    | ReadOk exeContent =>
                        submatchOr
                          (FindStringSubmatch electronSlashRegex exeContent)
                          version
                    | ReadErr _ => version
                    end in
                  (true, version, None)
              | _ => (false, "", None)
              end
          end
      end
  end.

Definition IsElectronApp (appPath : string) : bool * string * option string :=
  match GOOS h with
  | darwin => isElectronAppMacos appPath
  | windows => isElectronAppWindows appPath
  | otherOS _ => (false, "", Some "unsupported operating system")
  end.

Definition GetAsarPath (appPath : string) : string :=
  match GOOS h with
  | darwin => Join fp [appPath; "Contents"; "Resources"; "app.asar"]
  | windows =>
      let exePath := exePathOf appPath in
      Join fp [Dir fp exePath; "resources"; "app.asar"]
  | otherOS _ => ""
  end.

Definition HasAsarFile (appPath : string) : bool :=
  match Stat h (GetAsarPath appPath) with
  | StatNil => true
  | _ => false
  end.

(** [maxFiles > 0 && len(nodeFiles) >= maxFiles]. *)
Definition capReached (maxFiles : Z) (nodeFiles : list string) : bool :=
  ((0 <? maxFiles)%Z && (maxFiles <=? Z.of_nat (List.length nodeFiles))%Z)%bool.

(** The test of the walk callback: not a directory and a lower-cased name
    that ends in [.node]. *)
Definition isNodeFile (info : FileInfo) : bool :=
  (negb (IsDir info) &&
   Strings.HasSuffix (Strings.ToLower (Name info)) ".node")%bool.

(** The closure handed to [filepath.Walk]; it captures [nodeFiles]. *)
Definition nodeFileVisitor (maxFiles : Z) : WalkFunc (list string) :=
  fun path v nodeFiles =>
    match v with
    | Failed _ => (nodeFiles, SkipDir)
    | Visit info =>
        if isNodeFile info then
          let nodeFiles := nodeFiles ++ [path] in
          if capReached maxFiles nodeFiles
          then (nodeFiles, WalkErr "max files reached")
          else (nodeFiles, WalkNil)
        else (nodeFiles, WalkNil)
    end.

(** [searchRoots]; [None] on a platform the function gives up on. *)
Definition searchRoots (appPath : string) : option (list string) :=
  match GOOS h with
  | darwin =>
      Some [Join fp [appPath; "Contents"; "Resources"];
            Join fp [appPath; "Contents"; "Frameworks"]]
  | windows =>
      let dirPath := Dir fp (exePathOf appPath) in
      Some [dirPath; Join fp [dirPath; "resources"]]
  | otherOS _ => None
  end.

(** The loop over the search roots.  Besides [nodeFiles] it records, in
    call order, the roots [filepath.Walk] was called on; the program itself
    does not hold that list, it is kept here to speak about which roots are
    traversed. *)
Fixpoint searchLoop (maxFiles : Z) (roots : list string)
         (nodeFiles walked : list string) : list string * list string :=
  match roots with
  | [] => (nodeFiles, walked)
  | root :: rest =>
      let (nodeFiles, _) :=
        Walk fp (nodeFileVisitor maxFiles) root (Tree h root) nodeFiles in
      let walked := walked ++ [root] in
      if capReached maxFiles nodeFiles then (nodeFiles, walked)
      else searchLoop maxFiles rest nodeFiles walked
  end.

Definition FindNodeFilesTraced (appPath : string) (maxFiles : Z)
  : list string * list string :=
  match searchRoots appPath with
  | Some roots => searchLoop maxFiles roots [] []
  | None => ([], [])
  end.

Definition FindNodeFiles (appPath : string) (maxFiles : Z) : list string :=
  fst (FindNodeFilesTraced appPath maxFiles).

End Detector.
End Detector.

(** ** The integrity checks and [CheckAsarIntegrityForApp] *)

Section Integrity.
Variable fp : Filepath.
Variable h : Host.

Definition checkAsarIntegrityMacos (appPath : string) : bool * bool * option string :=
  let plistPath := Join fp [appPath; "Contents"; "Info.plist"] in
  match ReadFile h plistPath with
  | ReadErr msg => (false, false, Some ("error reading Info.plist: " ++ msg)%string)
  | ReadOk plistContent =>
      let hasAsarIntegrity := false in
      let hasOnlyLoadFromAsar := false in
      let hasAsarIntegrity :=
        if Bytes.Contains plistContent ElectronAsarIntegrityKey then
          if (Bytes.Contains plistContent hashKey &&
              Bytes.Contains plistContent algorithmKey)%bool
          then true
          else true
        else hasAsarIntegrity in
      let executablePath :=
        Join fp [appPath; "Contents"; "MacOS";
                 Base fp (Strings.TrimSuffix appPath ".app")] in
      let hasOnlyLoadFromAsar :=
        match Stat h executablePath with
        | StatNil =>
            match ReadFile h executablePath with
            | ReadOk execContent =>
                if Bytes.Contains execContent sigOnlyLoadAppFromAsar then true
                else hasOnlyLoadFromAsar
            | ReadErr _ => hasOnlyLoadFromAsar
            end
        | _ => hasOnlyLoadFromAsar
        end in
      let hasOnlyLoadFromAsar :=
        if negb hasOnlyLoadFromAsar then
          anySignature
            [sigOnlyLoadAppFromAsar; sigOnlyLoadFromAsar;
             sigFuseV1OnlyLoadAppFromAsar]
            plistContent hasOnlyLoadFromAsar
        else hasOnlyLoadFromAsar in
      (hasAsarIntegrity, hasOnlyLoadFromAsar, None)
  end.

Definition checkAsarIntegrityWindows (appPath : string) : bool * bool * option string :=
  let exePath := Detector.exePathOf fp appPath in
  match ReadFile h exePath with
  | ReadErr msg => (false, false, Some ("error reading executable: " ++ msg)%string)
  | ReadOk exeContent =>
      let hasAsarIntegrity := false in
      let hasOnlyLoadFromAsar := false in
      let matchCount := windowsMatchCount exeContent in
      let hasOnlyLoadFromAsar :=
        if Bytes.Contains exeContent sigOnlyLoadAppFromAsar then true
        else
          anySignature [sigOnlyLoadFromAsar; sigFuseV1OnlyLoadAppFromAsar]
                       exeContent hasOnlyLoadFromAsar in
      let hasAsarIntegrity :=
        if (2 <=? matchCount)%Z then true else hasAsarIntegrity in
      (hasAsarIntegrity, hasOnlyLoadFromAsar, None)
  end.

Definition CheckAsarIntegrityForApp (appPath : string) : AppResult :=
  let result := mkAppResult appPath false "" false false false [] "" in
  match Detector.IsElectronApp fp h appPath with
  | (_, _, Some err) => setIntegrityError err result
  | (isElectron, version, None) =>
      let result := setIsElectron isElectron result in
      let result := setVersion version result in
      if negb isElectron then result
      else
        let result := setHasAsarFile (Detector.HasAsarFile fp h appPath) result in
        if negb (HasAsarFile result) then result
        else
          match GOOS h with
          | darwin =>
              let '(hasIntegrity, onlyLoadFromAsar, err) :=
                checkAsarIntegrityMacos appPath in
              let result := setAsarIntegrity hasIntegrity result in
              let result := setOnlyLoadFromAsar onlyLoadFromAsar result in
              match err with
              | Some e => setIntegrityError e result
              | None => result
              end
          | windows =>
              let '(hasIntegrity, onlyLoadFromAsar, err) :=
                checkAsarIntegrityWindows appPath in
              let result := setAsarIntegrity hasIntegrity result in
              let result := setOnlyLoadFromAsar onlyLoadFromAsar result in
              match err with
              | Some e => setIntegrityError e result
              | None => result
              end
          | otherOS _ => setIntegrityError "unsupported operating system" result
          end
  end.

(** ** [main.go]: the loop over the candidates and the summary table *)

(** The body of [for _, app := range apps]: the result appended for [app].
    [listNodeFiles] and [maxNodeFiles] are the flags [-node-files] and
    [-max-node-files]. *)
Definition scanApp (listNodeFiles : bool) (maxNodeFiles : Z) (app : string)
  : AppResult :=
  let result := CheckAsarIntegrityForApp app in
  if (listNodeFiles && IsElectron result)%bool
  then setNodeFiles (Detector.FindNodeFiles fp h app maxNodeFiles) result
  else result.

(** [results] when [main] reaches the output stage, for the candidates
    [apps] returned by [ScanForElectronApps]; [None] when [main] exits with
    status 1 because the platform is neither macOS nor Windows. *)
Definition scanResults (listNodeFiles : bool) (maxNodeFiles : Z)
           (apps : list string) : option (list AppResult) :=
  match GOOS h with
  | otherOS _ => None
  | _ => Some (map (scanApp listNodeFiles maxNodeFiles) apps)
  end.

(** One line of the summary table of [outputResultsText]. *)
Record SummaryRow : Type := mkSummaryRow {
  colApplication : string;
  colVersion : string;
  colAsarFile : string;
  colIntegrity : string;
  colOnlyLoad : string
}.

(** The string literal of [version = ...] for a version that reads
    [detected]: in the source file it is the seven bytes below (a check mark
    whose UTF-8 bytes were encoded once more). *)
Definition checkMark : string :=
  string_of_list_byte [xc3; xa2; xc5; x93; xe2; x80; x9c].

(** The body of the last loop of [outputResultsText]: the line printed for
    [result], none for a result that is not an Electron application. *)
Definition summaryRow (result : AppResult) : option SummaryRow :=
  if IsElectron result then
    let version := Version result in
    let version :=
      if (String.eqb version "" || String.eqb version "unknown")%bool then "Unknown"
      else if String.eqb version "detected" then checkMark
      else version in
    let hasAsar := if HasAsarFile result then "Yes" else "No" in
    let integrity :=
      if HasAsarFile result then
        if AsarIntegrity result then "Yes" else "No"
      else "N/A" in
    let onlyLoad :=
      if HasAsarFile result then
        if OnlyLoadFromAsar result then "Yes" else "No"
      else "N/A" in
    let appName := Base fp (Path result) in
    let appName :=
      if (28 <? String.length appName)%nat
      then (substring 0 25 appName ++ "...")%string
      else appName in
    Some (mkSummaryRow appName version hasAsar integrity onlyLoad)
  else None.

End Integrity.

(** ** A concrete environment for closed examples *)

Module Sample.

(** The text after the last separator. *)
Fixpoint baseFrom (sep : ascii) (s acc : string) : string :=
  match s with
  | EmptyString => acc
  | String c s' =>
      if Ascii.eqb c sep then baseFrom sep s' EmptyString
      else baseFrom sep s' (acc ++ String c EmptyString)%string
  end.

(** [filepath.Join], [filepath.Base] and [filepath.Dir] on clean paths with
    at least one separator and no empty element, which is all the examples
    below hand to them. *)
Definition paths (sep : ascii) : Filepath :=
  mkFilepath
    (fun elems => String.concat (String sep EmptyString) elems)
    (fun path => baseFrom sep path EmptyString)
    (fun path =>
       substring 0
         (String.length path
          - String.length (baseFrom sep path EmptyString) - 1)
         path).

Definition slash : Filepath := paths "/"%char.
Definition backslash : Filepath := paths "\"%char.

(** A host given by its readable files, by the other paths that exist
    (directories and entries that cannot be read) and by the trees at the
    roots that can be walked. *)
Definition host (os : goos) (files : list (string * list byte))
           (others : list string) (trees : list (string * entry)) : Host :=
  mkHost os
    (fun path =>
       if (existsb (String.eqb path) others ||
           existsb (fun f => String.eqb path (fst f)) files)%bool
       then StatNil else ErrNotExist)
    (fun path =>
       match find (fun f => String.eqb path (fst f)) files with
       | Some f => ReadOk (snd f)
       | None =>
           if existsb (String.eqb path) others
           then ReadErr ("open " ++ path ++ ": permission denied")%string
           else ReadErr ("open " ++ path ++ ": no such file or directory")%string
       end)
    (fun path =>
       match find (fun t => String.eqb path (fst t)) trees with
       | Some t => snd t
       | None => Broken path
       end).

End Sample.

(** * Definitions of the specification

    What the properties below are stated with: substring occurrence, the
    score and the version in the words of the specification, the listing
    of native modules, and sample bundles for closed instances. *)

(** ** Substrings *)

(** [sub] occurs in [b]: some bytes, then [sub], then some bytes. *)
Definition occursIn (sub b : list byte) : Prop :=
  exists l r, b = l ++ sub ++ r.

(** ** The weighted score of the Windows check *)

(** The score in the words of the specification: one point for each of the
    three baseline markers that occurs, two more for the strong marker. *)
Definition point (present : bool) : Z := if present then 1%Z else 0%Z.

Definition specScore (exeContent : list byte) : Z :=
  (point (Bytes.Contains exeContent (Bytes.lit "ElectronAsar"))
   + point (Bytes.Contains exeContent (Bytes.lit "Integrity"))
   + point (Bytes.Contains exeContent (Bytes.lit "sha256"))
   + (if Bytes.Contains exeContent (Bytes.lit "EnableEmbeddedAsarIntegrityValidation")
      then 2 else 0))%Z.

(** The three components of what the integrity checks return. *)
Definition integrityOf (r : bool * bool * option string) : bool := fst (fst r).
Definition onlyLoadOf (r : bool * bool * option string) : bool := snd (fst r).
Definition errorOf (r : bool * bool * option string) : option string := snd r.

(** ** Evidence files *)

(** The bytes of the main executable of a macOS bundle, when it exists and
    can be read. *)
Definition macExecutableBytes (fp : Filepath) (h : Host) (appPath : string)
  : option (list byte) :=
  let executablePath :=
    Join fp [appPath; "Contents"; "MacOS";
             Base fp (Strings.TrimSuffix appPath ".app")] in
  match Stat h executablePath with
  | StatNil =>
      match ReadFile h executablePath with
      | ReadOk execContent => Some execContent
      | ReadErr _ => None
      end
  | _ => None
  end.

(** The three recognized spellings of the restriction marker. *)
Definition restrictionSpellings : list (list byte) :=
  [sigOnlyLoadAppFromAsar; sigOnlyLoadFromAsar; sigFuseV1OnlyLoadAppFromAsar].

(** The file whose content the integrity check of the platform judges. *)
Definition primaryEvidencePath (fp : Filepath) (h : Host) (appPath : string)
  : string :=
  match GOOS h with
  | darwin => Join fp [appPath; "Contents"; "Info.plist"]
  | windows => Detector.exePathOf fp appPath
  | otherOS _ => ""
  end.

(** ** The version of rule 1 *)

(** The capture of the first pattern, in listed order, that matches. *)
Fixpoint firstCapture (regexes : list Regexp) (content : list byte) : option string :=
  match regexes with
  | [] => None
  | re :: rest =>
      match FindStringSubmatch re content with
      | _ :: m1 :: _ => Some (string_of_list_byte m1)
      | _ => firstCapture rest content
      end
  end.

(** The version of rule 1 in the words of the specification: the patterns
    on the property list of the bundle, and on the one of the framework only
    when the version is still unresolved. *)
Definition specRule1Version (bundlePlist : list byte)
           (frameworkPlist : option (list byte)) : string :=
  match firstCapture versionRegexes bundlePlist with
  | Some v => v
  | None =>
      match frameworkPlist with
      | Some content =>
          match firstCapture versionRegexes content with
          | Some v => v
          | None => "unknown"
          end
      | None => "unknown"
      end
  end.

(** The version of rule 1 as the program resolves it: a match in the
    property list of the framework replaces the one of the bundle. *)
Definition rule1Version (bundlePlist : list byte)
           (frameworkPlist : option (list byte)) : string :=
  match
    match frameworkPlist with
    | Some content => firstCapture versionRegexes content
    | None => None
    end
  with
  | Some v => v
  | None =>
      match firstCapture versionRegexes bundlePlist with
      | Some v => v
      | None => "unknown"
      end
  end.

(** The property list of the framework, when it exists and can be read. *)
Definition frameworkPlistBytes (fp : Filepath) (h : Host) (appPath : string)
  : option (list byte) :=
  let frameworkPath :=
    Join fp [appPath; "Contents"; "Frameworks"; "Electron Framework.framework"] in
  let frameworkPlistPath := Join fp [frameworkPath; "Resources"; "Info.plist"] in
  match Stat h frameworkPlistPath with
  | StatNil =>
      match ReadFile h frameworkPlistPath with
      | ReadOk content => Some content
      | ReadErr _ => None
      end
  | _ => None
  end.

(** A pattern with a capturing group. *)
Definition hasGroup (re : Regexp) : bool :=
  existsb (fun i => match i with Group _ => true | _ => false end) re.

(** ** The native modules *)

(** The native modules below an entry, in the order of a walk that nothing
    stops: a file with a matching name contributes its path, a directory the
    modules of its entries in their listed order; an entry that cannot be
    examined contributes nothing. *)
Fixpoint nodeFilesUnder (fp : Filepath) (path : string) (e : entry) : list string :=
  match e with
  | File name =>
      if Detector.isNodeFile (mkFileInfo name false) then [path] else []
  | Directory _ children =>
      (fix below (names : list entry) : list string :=
         match names with
         | [] => []
         | c :: rest =>
             nodeFilesUnder fp (Join fp [path; entryName c]) c ++ below rest
         end) children
  | UnreadableDir _ | Broken _ => []
  end.

(** The native modules of a forest of search roots. *)
Definition nodeFilesOfRoots (fp : Filepath) (h : Host) (roots : list string)
  : list string :=
  flat_map (fun root => nodeFilesUnder fp root (Tree h root)) roots.

(** What a capped walk keeps of the modules a free walk would find. *)
Definition kept (maxFiles : Z) (l : list string) : list string :=
  if Detector.capReached maxFiles l then firstn (Z.to_nat maxFiles) l else l.

(** The outcome of [walk] with the callback of [FindNodeFiles]. *)
Definition walkOutcome (maxFiles : Z) (e : entry) (all : list string)
  : list string * walkError :=
  if Detector.capReached maxFiles all
  then (firstn (Z.to_nat maxFiles) all, WalkErr "max files reached")
  else (all, match e with
             | File _ | Directory _ _ => WalkNil
             | UnreadableDir _ | Broken _ => SkipDir
             end).

(** ** Sample bundles *)

Module Bundles.

(** A Windows application whose executable carries two baseline markers. *)
Definition winApp : string := "C:\Apps\Demo\Demo.exe".

Definition winExe : list byte := Bytes.lit "MZ..sha256..Integrity..".

Definition winHost : Host :=
  Sample.host windows
    [(winApp, winExe)]
    ["C:\Apps\Demo\resources"; "C:\Apps\Demo\resources\app.asar"]
    [].

(** The same application with nothing but the strong marker in its
    executable. *)
Definition winExeStrong : list byte :=
  Bytes.lit "MZ..EnableEmbeddedAsarIntegrityValidation..".

Definition winHostStrong : Host :=
  Sample.host windows
    [(winApp, winExeStrong)]
    ["C:\Apps\Demo\resources"; "C:\Apps\Demo\resources\app.asar"]
    [].

(** A macOS bundle with the framework, the archive, the integrity key
    without its sub-keys, and a version in both property lists. *)
Definition macApp : string := "/Applications/Demo.app".

Definition macPlist : list byte :=
  Bytes.lit "<key>ElectronVersion</key><string>1.0</string><key>ElectronAsarIntegrity</key>".

Definition macFrameworkPlist : list byte :=
  Bytes.lit "<key>CFBundleVersion</key> <string>2.0</string>".

Definition macExe : list byte := Bytes.lit "..OnlyLoadAppFromAsar..".

Definition macHost : Host :=
  Sample.host darwin
    [("/Applications/Demo.app/Contents/Info.plist", macPlist);
     ("/Applications/Demo.app/Contents/Frameworks/Electron Framework.framework/Resources/Info.plist",
      macFrameworkPlist);
     ("/Applications/Demo.app/Contents/MacOS/Demo", macExe)]
    ["/Applications/Demo.app/Contents/Frameworks/Electron Framework.framework";
     "/Applications/Demo.app/Contents/Resources/app.asar"]
    [("/Applications/Demo.app/Contents/Resources",
      Directory "Resources"
        [File "a.node";
         Directory "app.asar.unpacked" [File "B.NODE"; File "c.txt"; Broken "y.node"];
         UnreadableDir "q";
         File "z.node"]);
     ("/Applications/Demo.app/Contents/Frameworks",
      Directory "Frameworks" [File "f.node"])].

(** The same bundle with a property list that cannot be read. *)
Definition macHostUnreadable : Host :=
  Sample.host darwin
    []
    ["/Applications/Demo.app/Contents/Info.plist";
     "/Applications/Demo.app/Contents/Frameworks/Electron Framework.framework";
     "/Applications/Demo.app/Contents/Resources/app.asar"]
    [].

End Bundles.

(** A macOS bundle with the framework and without the archive. *)

Definition macHostNoArchive : Host :=
  Sample.host darwin
    [("/Applications/Demo.app/Contents/Info.plist",
      Bytes.lit "<key>ElectronVersion</key><string>27.0.2</string>")]
    ["/Applications/Demo.app/Contents/Frameworks/Electron Framework.framework"]
    [].

(** * The rest of the program *)

(** ** [scanner.go] *)

Module Scanner.
Section Scanner.
Variable fp : Filepath.
Variable h : Host.
(** [os.Getenv]. *)
Variable Getenv : string -> string.

(** The closure [scanForElectronAppsMacos] hands to [filepath.Walk]; it
    captures [appPaths]. *)
Definition appBundleVisitor : WalkFunc (list string) :=
  fun path v appPaths =>
    match v with
    | Failed _ => (appPaths, WalkNil)
    | Visit info =>
        if (IsDir info && Strings.HasSuffix path ".app")%bool
        then (appPaths ++ [path], WalkNil)
        else (appPaths, WalkNil)
    end.

(** The closure [scanForElectronAppsWindows] hands to [filepath.Walk]. *)
Definition exeVisitor : WalkFunc (list string) :=
  fun path v appPaths =>
    match v with
    | Failed _ => (appPaths, WalkNil)
    | Visit info =>
        if (negb (IsDir info) && Strings.HasSuffix path ".exe")%bool then
          let resourcesDir := Join fp [Dir fp path; "resources"] in
          match Stat h resourcesDir with
          | StatNil => (appPaths ++ [path], WalkNil)
          | _ => (appPaths, WalkNil)
          end
        else (appPaths, WalkNil)
    end.

(** [err.Error()] of what [filepath.Walk] returned. *)
Definition walkErrorText (err : walkError) : string :=
  match err with
  | WalkNil => ""
  | SkipDir => "skip this directory"
  | SkipAll => "skip everything and stop the walk"
  | WalkErr msg => msg
  end.

(** The loop [for _, dir := range searchDirs] of the two scanning
    functions, which differ in the directories and in the closure only: a
    directory that does not exist is skipped, an error of the walk ends the
    scan with [nil] and an error. *)
Fixpoint scanDirs (visitor : WalkFunc (list string)) (searchDirs : list string)
         (appPaths : list string) : list string * option string :=
  match searchDirs with
  | [] => (appPaths, None)
  | dir :: rest =>
      match Stat h dir with
      | ErrNotExist => scanDirs visitor rest appPaths
      | _ =>
          let (appPaths, err) := Walk fp visitor dir (Tree h dir) appPaths in
          match err with
          | WalkNil => scanDirs visitor rest appPaths
          | _ =>
              ([], Some ("error scanning directory " ++ dir ++ ": "
                         ++ walkErrorText err)%string)
          end
      end
  end.

Definition macosSearchDirs : list string :=
  ["/Applications"; Join fp [Getenv "HOME"; "Applications"]].

Definition windowsSearchDirs : list string :=
  [Join fp [Getenv "ProgramFiles"];
   Join fp [Getenv "ProgramFiles(x86)"];
   Join fp [Getenv "LOCALAPPDATA"; "Programs"]].

Definition scanForElectronAppsMacos : list string * option string :=
  scanDirs appBundleVisitor macosSearchDirs [].

Definition scanForElectronAppsWindows : list string * option string :=
  scanDirs exeVisitor windowsSearchDirs [].

Definition ScanForElectronApps : list string * option string :=
  match GOOS h with
  | darwin => scanForElectronAppsMacos
  | _ => scanForElectronAppsWindows
  end.

End Scanner.
End Scanner.

(** ** [main.go]: from the scan to the report *)

Section Report.
Variable fp : Filepath.
Variable h : Host.

(** [results] when [main] reaches the output stage; [None] when it exits
    with status 1, on a platform that is neither macOS nor Windows or when
    the scan returns an error. *)
Definition mainResults (Getenv : string -> string) (listNodeFiles : bool)
           (maxNodeFiles : Z) : option (list AppResult) :=
  match GOOS h with
  | otherOS _ => None
  | _ =>
      match Scanner.ScanForElectronApps fp h Getenv with
      | (_, Some _) => None
      | (apps, None) => Some (map (scanApp fp h listNodeFiles maxNodeFiles) apps)
      end
  end.

(** The verbs [%t] and [%d] of [fmt.Printf]. *)
Definition fmtBool (b : bool) : string := if b then "true" else "false".

Definition fmtInt (n : Z) : string :=
  DecimalString.NilZero.string_of_int (Z.to_int n).

(** The line feed. *)
Definition nl : string := String (ascii_of_nat 10) EmptyString.

(** The loop [for i, nodeFile := range result.NodeFiles] of the detailed
    listing: one [Printf] per path, numbered from [i + 1]. *)
Fixpoint nodeFileLines (i : Z) (nodeFiles : list string) : list string :=
  match nodeFiles with
  | [] => []
  | nodeFile :: rest =>
      ("    " ++ fmtInt (i + 1) ++ ". " ++ nodeFile ++ nl)%string
        :: nodeFileLines (i + 1) rest
  end.

(** What the first loop of [outputResultsText] prints for one Electron
    result: the text of each [Printf], in order. *)
Definition detailBlock (index : Z) (result : AppResult) (showNodeFiles : bool)
  : list string :=
  [(nl ++ "[" ++ fmtInt index ++ "] " ++ Path result ++ nl)%string;
   ("  Is Electron App: " ++ fmtBool (IsElectron result) ++ nl)%string;
   ("  Electron Version: " ++ Version result ++ nl)%string;
   ("  Has ASAR File: " ++ fmtBool (HasAsarFile result) ++ nl)%string]
  ++ (if HasAsarFile result then
        [("  ASAR Integrity Enabled: " ++ fmtBool (AsarIntegrity result) ++ nl)%string;
         ("  OnlyLoadFromAsar Enabled: "
          ++ fmtBool (OnlyLoadFromAsar result) ++ nl)%string]
        ++ (if negb (String.eqb (IntegrityError result) "")
            then [("  Error: " ++ IntegrityError result ++ nl)%string]
            else [])
      else [])
  ++ (if (showNodeFiles && (0 <? Z.of_nat (List.length (NodeFiles result)))%Z)%bool
      then
        ("  .node Files ("
         ++ fmtInt (Z.of_nat (List.length (NodeFiles result)))
         ++ " found):" ++ nl)%string
          :: nodeFileLines 0 (NodeFiles result)
      else []).

(** The first loop of [outputResultsText], threading [index]: the blocks
    printed, one per Electron result. *)
Fixpoint detailedListing (results : list AppResult) (showNodeFiles : bool)
         (index : Z) : list (list string) :=
  match results with
  | [] => []
  | result :: rest =>
      if negb (IsElectron result) then detailedListing rest showNodeFiles index
      else
        detailBlock index result showNodeFiles
          :: detailedListing rest showNodeFiles (index + 1)
  end.

(** The counters of the summary statistics. *)
Record Counts : Type := mkCounts {
  electronCount : Z;
  asarCount : Z;
  integrityCount : Z;
  onlyLoadCount : Z
}.

(** The second loop of [outputResultsText], threading the four counters. *)
Fixpoint countLoop (results : list AppResult) (c : Counts) : Counts :=
  match results with
  | [] => c
  | result :: rest =>
      countLoop rest
        (if IsElectron result then
           let electronCount := (electronCount c + 1)%Z in
           if HasAsarFile result then
             let asarCount := (asarCount c + 1)%Z in
             let integrityCount :=
               if AsarIntegrity result then (integrityCount c + 1)%Z
               else integrityCount c in
             let onlyLoadCount :=
               if OnlyLoadFromAsar result then (onlyLoadCount c + 1)%Z
               else onlyLoadCount c in
             mkCounts electronCount asarCount integrityCount onlyLoadCount
           else
             mkCounts electronCount (asarCount c) (integrityCount c)
                      (onlyLoadCount c)
         else c)
  end.

Definition summaryCounts (results : list AppResult) : Counts :=
  countLoop results (mkCounts 0 0 0 0).

(** The last loop of [outputResultsText]: the lines of the summary table. *)
Fixpoint summaryTable (results : list AppResult) : list SummaryRow :=
  match results with
  | [] => []
  | result :: rest =>
      match summaryRow fp result with
      | Some row => row :: summaryTable rest
      | None => summaryTable rest
      end
  end.

End Report.

(** ** [main.go]: the JSON report *)






(** ** What the walks visit *)

(** [Visits fp path e p e']: a walk of the tree [e] found at [path] comes
    to the entry [e'] under the path [p]; it descends into the directories
    it could list and into nothing else. *)
Inductive Visits (fp : Filepath) : string -> entry -> string -> entry -> Prop :=
| VisitsHere (path : string) (e : entry) : Visits fp path e path e
| VisitsBelow (path name : string) (children : list entry) (c : entry)
              (p : string) (e' : entry) :
    In c children ->
    Visits fp (Join fp [path; entryName c]) c p e' ->
    Visits fp path (Directory name children) p e'.

(** The [FileInfo] a walk hands to its callback with a [nil] error, none
    for an entry it reports with an error. *)
Definition entryInfo (e : entry) : option FileInfo :=
  match e with
  | File name => Some (mkFileInfo name false)
  | Directory name _ => Some (mkFileInfo name true)
  | UnreadableDir _ | Broken _ => None
  end.

(** The paths a walk that nothing stops comes to and that [sel] selects, in
    the order of the walk. *)
Fixpoint collect (fp : Filepath) (sel : string -> FileInfo -> bool)
         (path : string) (e : entry) : list string :=
  match e with
  | File name => if sel path (mkFileInfo name false) then [path] else []
  | Directory name children =>
      (if sel path (mkFileInfo name true) then [path] else [])
      ++ (fix below (names : list entry) : list string :=
            match names with
            | [] => []
            | c :: rest =>
                collect fp sel (Join fp [path; entryName c]) c ++ below rest
            end) children
  | UnreadableDir _ | Broken _ => []
  end.

(** What the two scanning closures select. *)
Definition isAppBundle (path : string) (info : FileInfo) : bool :=
  (IsDir info && Strings.HasSuffix path ".app")%bool.

Definition isExeWithResources (fp : Filepath) (h : Host) (path : string)
           (info : FileInfo) : bool :=
  (negb (IsDir info) && Strings.HasSuffix path ".exe" &&
   match Stat h (Join fp [Dir fp path; "resources"]) with
   | StatNil => true
   | _ => false
   end)%bool.

(** The directories a scan walks: the search directories that are not
    reported missing. *)
Definition walkedDirs (h : Host) (searchDirs : list string) : list string :=
  filter (fun dir => match Stat h dir with ErrNotExist => false | _ => true end)
         searchDirs.

(** The candidates of a scan, in the words of [collect]. *)
Definition candidatesOf (fp : Filepath) (h : Host)
           (sel : string -> FileInfo -> bool) (searchDirs : list string)
  : list string :=
  flat_map (fun dir => collect fp sel dir (Tree h dir)) (walkedDirs h searchDirs).

(** The byte of the double quote does not occur in [s]. *)
Definition quoteFree (s : string) : Prop :=
  Forall (fun b => b <> x22) (list_byte_of_string s).

(** The class of the last capturing group of a pattern. *)
Fixpoint groupClass (re : Regexp) (cls : byte -> bool) : byte -> bool :=
  match re with
  | [] => cls
  | Group c :: re' => groupClass re' c
  | _ :: re' => groupClass re' cls
  end.

(** Numbering from [index]. *)
Fixpoint numberedFrom (index : Z) (results : list AppResult)
  : list (Z * AppResult) :=
  match results with
  | [] => []
  | r :: rest => (index, r) :: numberedFrom (index + 1) rest
  end.

(** ** Versions and counts *)

(** A version the classifier may return with a positive answer: not empty,
    without a double quote. *)
Definition goodVersion (v : string) : Prop := v <> "" /\ quoteFree v.

(** A pattern whose group is there and matches no double quote. *)
Definition quoteFreePattern (re : Regexp) : Prop :=
  hasGroup re = true /\
  forall b, groupClass re (fun _ => true) b = true -> b <> x22.

(** The number of results with a flag. *)
Definition countIf (flag : AppResult -> bool) (results : list AppResult) : Z :=
  Z.of_nat (List.length (filter flag results)).

(** The first [Printf] of a block of the detailed listing. *)
Definition blockHeader (numbered : Z * AppResult) : string :=
  (nl ++ "[" ++ fmtInt (fst numbered) ++ "] " ++ Path (snd numbered) ++ nl)%string.

(** ** Sample hosts for the scan *)

Module ScanSamples.

Definition getenv (name : string) : string :=
  if String.eqb name "HOME" then "/Users/me"
  else if String.eqb name "ProgramFiles" then "C:\Program Files"
  else if String.eqb name "ProgramFiles(x86)" then "C:\Program Files (x86)"
  else if String.eqb name "LOCALAPPDATA" then "C:\Users\me\AppData\Local"
  else "".

(** [/Applications] with a bundle that holds a helper bundle, a bundle that
    cannot be listed, and no [~/Applications]. *)
Definition macScanHost : Host :=
  Sample.host darwin [] ["/Applications"]
    [("/Applications",
      Directory "Applications"
        [Directory "Demo.app"
           [Directory "Contents"
              [Directory "Frameworks" [Directory "Demo Helper.app" []]]];
         UnreadableDir "Locked.app";
         File "notes.app";
         Directory "Utilities" [Directory "Tool.app" []]])].

(** [C:\Program Files] with an executable beside a [resources] directory
    and one without. *)
Definition winScanHost : Host :=
  Sample.host windows
    [("C:\Program Files\Demo\Demo.exe", Bytes.lit "MZ..Electron/28.1.0..")]
    ["C:\Program Files"; "C:\Program Files\Demo\resources";
     "C:\Program Files\Demo\resources\app.asar"]
    [("C:\Program Files",
      Directory "Program Files"
        [Directory "Demo"
           [File "Demo.exe"; Directory "resources" [File "app.asar"; File "x.node"]];
         Directory "Plain" [File "plain.exe"]]);
     ("C:\Program Files\Demo",
      Directory "Demo"
        [File "Demo.exe"; Directory "resources" [File "app.asar"; File "x.node"]]);
     ("C:\Program Files\Demo\resources",
      Directory "resources" [File "app.asar"; File "x.node"])].

End ScanSamples.

(** * Properties *)

(** ** Substrings *)

Section BytesFacts.

Lemma byte_eqb_true (x y : byte) : Byte.eqb x y = true <-> x = y.
Proof.
  split; [apply Byte.byte_dec_bl | apply Byte.byte_dec_lb].
Qed.

Lemma HasPrefix_app (p r : list byte) : Bytes.HasPrefix (p ++ r) p = true.
Proof.
  induction p as [|c p IH]; simpl; [reflexivity|].
  rewrite IH, andb_true_r. now apply byte_eqb_true.
Qed.

Lemma HasPrefix_inv (s p : list byte) :
  Bytes.HasPrefix s p = true -> exists r, s = p ++ r.
Proof.
  revert s; induction p as [|c p IH]; intros s H.
  - now exists s.
  - destruct s as [|d s]; simpl in H; [discriminate|].
    apply andb_true_iff in H as [Hc Hp].
    apply byte_eqb_true in Hc; subst d.
    destruct (IH _ Hp) as [r ->]. now exists r.
Qed.

Lemma Contains_at_start (b sub : list byte) :
  Bytes.HasPrefix b sub = true -> Bytes.Contains b sub = true.
Proof.
  intros H. destruct b; simpl; rewrite H; reflexivity.
Qed.

Lemma Contains_occursIn (b sub : list byte) :
  Bytes.Contains b sub = true <-> occursIn sub b.
Proof.
  split.
  - induction b as [|c b IH]; simpl; intros H.
    + rewrite orb_false_r in H. destruct (HasPrefix_inv _ _ H) as [r Hr].
      now exists [], r.
    + apply orb_true_iff in H as [H|H].
      * destruct (HasPrefix_inv _ _ H) as [r Hr]. now exists [], r.
      * destruct (IH H) as (l & r & ->). now exists (c :: l), r.
  - intros (l & r & ->). induction l as [|c l IH]; simpl.
    + apply Contains_at_start, HasPrefix_app.
    + rewrite IH. apply orb_true_r.
Qed.

Lemma occursIn_trans (a b c : list byte) :
  occursIn a b -> occursIn b c -> occursIn a c.
Proof.
  intros (l1 & r1 & ->) (l2 & r2 & ->).
  exists (l2 ++ l1), (r1 ++ r2). now rewrite <- !app_assoc.
Qed.

Lemma Contains_mono (a b sub : list byte) :
  occursIn a b -> Bytes.Contains a sub = true -> Bytes.Contains b sub = true.
Proof.
  intros Hab Ha. apply Contains_occursIn.
  apply occursIn_trans with a; [now apply Contains_occursIn | exact Hab].
Qed.

End BytesFacts.

(** ** The weighted score of the Windows check *)

Section Outcome.
Variable fp : Filepath.
Variable h : Host.

Lemma windowsMatchCount_specScore (exeContent : list byte) :
  windowsMatchCount exeContent = specScore exeContent.
Proof.
  unfold windowsMatchCount, specScore, asarIntegritySignatures,
    EnableEmbeddedAsarIntegrityValidation, point. simpl.
  repeat match goal with |- context [Bytes.Contains ?b ?s] =>
    destruct (Bytes.Contains b s) end; reflexivity.
Qed.

(** When the archive was found, the verdicts of a result on macOS are the
    ones of [checkAsarIntegrityMacos]. *)
Lemma CheckAsarIntegrityForApp_darwin (appPath : string) :
  GOOS h = darwin ->
  HasAsarFile (CheckAsarIntegrityForApp fp h appPath) = true ->
  let c := checkAsarIntegrityMacos fp h appPath in
  let r := CheckAsarIntegrityForApp fp h appPath in
  IsElectron r = true /\
  AsarIntegrity r = integrityOf c /\
  OnlyLoadFromAsar r = onlyLoadOf c /\
  IntegrityError r = match errorOf c with Some e => e | None => "" end.
Proof.
  intros Hos. unfold CheckAsarIntegrityForApp.
  destruct (Detector.IsElectronApp fp h appPath) as [[isE v] [e|]]; simpl;
    [discriminate|].
  destruct isE; simpl; [|discriminate].
  destruct (Detector.HasAsarFile fp h appPath); simpl; [|discriminate].
  rewrite Hos. intros _.
  destruct (checkAsarIntegrityMacos fp h appPath) as [[a b] [e|]]; simpl; auto.
Qed.

Lemma CheckAsarIntegrityForApp_windows (appPath : string) :
  GOOS h = windows ->
  HasAsarFile (CheckAsarIntegrityForApp fp h appPath) = true ->
  let c := checkAsarIntegrityWindows fp h appPath in
  let r := CheckAsarIntegrityForApp fp h appPath in
  IsElectron r = true /\
  AsarIntegrity r = integrityOf c /\
  OnlyLoadFromAsar r = onlyLoadOf c /\
  IntegrityError r = match errorOf c with Some e => e | None => "" end.
Proof.
  intros Hos. unfold CheckAsarIntegrityForApp.
  destruct (Detector.IsElectronApp fp h appPath) as [[isE v] [e|]]; simpl;
    [discriminate|].
  destruct isE; simpl; [|discriminate].
  destruct (Detector.HasAsarFile fp h appPath); simpl; [|discriminate].
  rewrite Hos. intros _.
  destruct (checkAsarIntegrityWindows fp h appPath) as [[a b] [e|]]; simpl; auto.
Qed.

End Outcome.

(** ** The integrity verdicts *)

(** C1. On Windows the value the check compares with its threshold is the
    score of the specification -- one point per baseline marker that occurs
    as a substring, two for the strong marker -- and integrity is reported
    exactly when that score is at least 2, by the check and, once the archive
    was found, in the result of the application. *)
Theorem C1_windows_integrity_threshold
        (fp : Filepath) (h : Host) (appPath : string) (exeContent : list byte) :
  ReadFile h (Detector.exePathOf fp appPath) = ReadOk exeContent ->
  (forall sub, Bytes.Contains exeContent sub = true <-> occursIn sub exeContent) /\
  windowsMatchCount exeContent = specScore exeContent /\
  (integrityOf (checkAsarIntegrityWindows fp h appPath) = true
   <-> (2 <= specScore exeContent)%Z) /\
  (GOOS h = windows ->
   HasAsarFile (CheckAsarIntegrityForApp fp h appPath) = true ->
   (AsarIntegrity (CheckAsarIntegrityForApp fp h appPath) = true
    <-> (2 <= specScore exeContent)%Z)).
Proof.
  intros Hread.
  assert (Hcheck : integrityOf (checkAsarIntegrityWindows fp h appPath) = true
                   <-> (2 <= specScore exeContent)%Z).
  { unfold checkAsarIntegrityWindows. rewrite Hread.
    rewrite windowsMatchCount_specScore. unfold integrityOf; simpl.
    destruct (2 <=? specScore exeContent)%Z eqn:E.
    - apply Z.leb_le in E. tauto.
    - apply Z.leb_gt in E. split; [discriminate | lia]. }
  split; [intros sub; apply Contains_occursIn|].
  split; [apply windowsMatchCount_specScore|].
  split; [exact Hcheck|].
  intros Hos Hasar.
  destruct (CheckAsarIntegrityForApp_windows fp h appPath Hos Hasar) as (_ & -> & _).
  exact Hcheck.
Qed.

Lemma C1_windows_integrity_threshold_witness :
  ReadFile Bundles.winHost (Detector.exePathOf Sample.backslash Bundles.winApp)
  = ReadOk Bundles.winExe /\
  specScore Bundles.winExe = 2%Z /\
  AsarIntegrity (CheckAsarIntegrityForApp Sample.backslash Bundles.winHost Bundles.winApp)
  = true.
Proof.
  split; [reflexivity|]. split; [reflexivity|].
  apply (C1_windows_integrity_threshold Sample.backslash Bundles.winHost
           Bundles.winApp Bundles.winExe eq_refl); [reflexivity | reflexivity |].
  vm_compute. discriminate.
Defined.

(** C8. The Windows score is monotone: when the content [A] occurs inside
    the content [B], the score of [B] is at least the score of [A], and an
    executable with content [B] is reported with integrity whenever one with
    content [A] is. *)
Theorem C8_windows_score_monotone (A B : list byte) :
  occursIn A B ->
  (windowsMatchCount A <= windowsMatchCount B)%Z /\
  (forall (fp : Filepath) (hA hB : Host) (appPath : string),
      ReadFile hA (Detector.exePathOf fp appPath) = ReadOk A ->
      ReadFile hB (Detector.exePathOf fp appPath) = ReadOk B ->
      integrityOf (checkAsarIntegrityWindows fp hA appPath) = true ->
      integrityOf (checkAsarIntegrityWindows fp hB appPath) = true).
Proof.
  intros HAB.
  assert (Hmono : forall sub, (point (Bytes.Contains A sub)
                               <= point (Bytes.Contains B sub))%Z).
  { intros sub. destruct (Bytes.Contains A sub) eqn:EA.
    - rewrite (Contains_mono A B sub HAB EA). simpl; lia.
    - destruct (Bytes.Contains B sub); simpl; lia. }
  assert (Hle : (windowsMatchCount A <= windowsMatchCount B)%Z).
  { rewrite !windowsMatchCount_specScore. unfold specScore.
    pose proof (Hmono (Bytes.lit "ElectronAsar")).
    pose proof (Hmono (Bytes.lit "Integrity")).
    pose proof (Hmono (Bytes.lit "sha256")).
    pose proof (Hmono (Bytes.lit "EnableEmbeddedAsarIntegrityValidation")) as Hs.
    unfold point in Hs.
    destruct (Bytes.Contains A (Bytes.lit "EnableEmbeddedAsarIntegrityValidation"));
      destruct (Bytes.Contains B (Bytes.lit "EnableEmbeddedAsarIntegrityValidation"));
      lia. }
  split; [exact Hle|].
  intros fp hA hB appPath HA HB.
  unfold checkAsarIntegrityWindows. rewrite HA, HB. unfold integrityOf; simpl.
  destruct (2 <=? windowsMatchCount A)%Z eqn:EA; [|discriminate].
  apply Z.leb_le in EA. intros _.
  destruct (2 <=? windowsMatchCount B)%Z eqn:EB; [reflexivity|].
  apply Z.leb_gt in EB. lia.
Qed.

Lemma C8_windows_score_monotone_witness :
  occursIn (Bytes.lit "sha256") Bundles.winExe /\
  (windowsMatchCount (Bytes.lit "sha256") <= windowsMatchCount Bundles.winExe)%Z.
Proof.
  assert (H : occursIn (Bytes.lit "sha256") Bundles.winExe).
  { exists (Bytes.lit "MZ.."), (Bytes.lit "..Integrity.."). reflexivity. }
  split; [exact H|].
  exact (proj1 (C8_windows_score_monotone _ _ H)).
Defined.

(** C10. On Windows the strong marker alone decides: the baseline marker
    [Integrity] is part of it, so a content with the strong marker scores at
    least 3 and integrity is reported. *)
Theorem C10_windows_strong_marker_suffices (exeContent : list byte) :
  Bytes.Contains exeContent EnableEmbeddedAsarIntegrityValidation = true ->
  occursIn (Bytes.lit "Integrity") EnableEmbeddedAsarIntegrityValidation /\
  (3 <= windowsMatchCount exeContent)%Z /\
  (forall (fp : Filepath) (h : Host) (appPath : string),
      ReadFile h (Detector.exePathOf fp appPath) = ReadOk exeContent ->
      integrityOf (checkAsarIntegrityWindows fp h appPath) = true).
Proof.
  intros Hstrong.
  assert (Hin : occursIn (Bytes.lit "Integrity") EnableEmbeddedAsarIntegrityValidation).
  { exists (Bytes.lit "EnableEmbeddedAsar"), (Bytes.lit "Validation"). reflexivity. }
  assert (Hint : Bytes.Contains exeContent (Bytes.lit "Integrity") = true).
  { apply Contains_occursIn.
    apply occursIn_trans with EnableEmbeddedAsarIntegrityValidation; [exact Hin|].
    now apply Contains_occursIn. }
  assert (Hscore : (3 <= windowsMatchCount exeContent)%Z).
  { rewrite windowsMatchCount_specScore. unfold specScore.
    fold EnableEmbeddedAsarIntegrityValidation. rewrite Hstrong, Hint.
    unfold point.
    destruct (Bytes.Contains exeContent (Bytes.lit "ElectronAsar"));
      destruct (Bytes.Contains exeContent (Bytes.lit "sha256")); lia. }
  split; [exact Hin|]. split; [exact Hscore|].
  intros fp h appPath Hread.
  unfold checkAsarIntegrityWindows. rewrite Hread. unfold integrityOf; simpl.
  destruct (2 <=? windowsMatchCount exeContent)%Z eqn:E; [reflexivity|].
  apply Z.leb_gt in E. lia.
Qed.

Lemma C10_windows_strong_marker_suffices_witness :
  Bytes.Contains Bundles.winExeStrong EnableEmbeddedAsarIntegrityValidation = true /\
  Bytes.Contains Bundles.winExeStrong (Bytes.lit "ElectronAsar") = false /\
  Bytes.Contains Bundles.winExeStrong (Bytes.lit "sha256") = false /\
  windowsMatchCount Bundles.winExeStrong = 3%Z /\
  integrityOf (checkAsarIntegrityWindows Sample.backslash Bundles.winHostStrong
                                         Bundles.winApp) = true.
Proof.
  repeat (split; [reflexivity|]).
  exact (proj2 (proj2 (C10_windows_strong_marker_suffices Bundles.winExeStrong
                         eq_refl))
               Sample.backslash Bundles.winHostStrong Bundles.winApp eq_refl).
Defined.

(** C2. On macOS, with a readable property list, integrity is reported
    whenever the key [<key>ElectronAsarIntegrity</key>] occurs in it;
    whether the [hash] and [algorithm] sub-keys occur plays no part, and the
    check returns no error.  Once the archive was found, the result of the
    application carries that verdict. *)
Theorem C2_macos_integrity_key_suffices
        (fp : Filepath) (h : Host) (appPath : string) (plistContent : list byte) :
  ReadFile h (Join fp [appPath; "Contents"; "Info.plist"]) = ReadOk plistContent ->
  Bytes.Contains plistContent ElectronAsarIntegrityKey = true ->
  forall hasHash hasAlgorithm : bool,
    Bytes.Contains plistContent hashKey = hasHash ->
    Bytes.Contains plistContent algorithmKey = hasAlgorithm ->
    integrityOf (checkAsarIntegrityMacos fp h appPath) = true /\
    errorOf (checkAsarIntegrityMacos fp h appPath) = None /\
    (GOOS h = darwin ->
     HasAsarFile (CheckAsarIntegrityForApp fp h appPath) = true ->
     AsarIntegrity (CheckAsarIntegrityForApp fp h appPath) = true /\
     IntegrityError (CheckAsarIntegrityForApp fp h appPath) = "").
Proof.
  intros Hread Hkey hasHash hasAlgorithm _ _.
  assert (Hc : integrityOf (checkAsarIntegrityMacos fp h appPath) = true /\
               errorOf (checkAsarIntegrityMacos fp h appPath) = None).
  { unfold checkAsarIntegrityMacos. rewrite Hread, Hkey.
    unfold integrityOf, errorOf; simpl.
    destruct (Bytes.Contains plistContent hashKey &&
              Bytes.Contains plistContent algorithmKey)%bool; auto. }
  destruct Hc as [Hi He]. split; [exact Hi|]. split; [exact He|].
  intros Hos Hasar.
  destruct (CheckAsarIntegrityForApp_darwin fp h appPath Hos Hasar)
    as (_ & -> & _ & ->).
  rewrite He. split; [exact Hi | reflexivity].
Qed.

Lemma C2_macos_integrity_key_suffices_witness :
  ReadFile Bundles.macHost (Join Sample.slash [Bundles.macApp; "Contents"; "Info.plist"])
  = ReadOk Bundles.macPlist /\
  Bytes.Contains Bundles.macPlist ElectronAsarIntegrityKey = true /\
  Bytes.Contains Bundles.macPlist hashKey = false /\
  Bytes.Contains Bundles.macPlist algorithmKey = false /\
  AsarIntegrity (CheckAsarIntegrityForApp Sample.slash Bundles.macHost Bundles.macApp)
  = true.
Proof.
  repeat (split; [reflexivity|]).
  apply (C2_macos_integrity_key_suffices Sample.slash Bundles.macHost
           Bundles.macApp Bundles.macPlist eq_refl eq_refl false false
           eq_refl eq_refl); reflexivity.
Defined.

(** ** The restriction to the archive *)

Lemma anySignature_true_iff (sigs : list (list byte)) (content : list byte) :
  anySignature sigs content false = true
  <-> exists sig, In sig sigs /\ Bytes.Contains content sig = true.
Proof.
  induction sigs as [|s sigs IH]; simpl.
  - split; [discriminate | intros (sig & [] & _)].
  - destruct (Bytes.Contains content s) eqn:E.
    + split; [|reflexivity]. intros _. exists s; auto.
    + rewrite IH. split.
      * intros (sig & Hin & Hc). exists sig; auto.
      * intros (sig & [<- | Hin] & Hc); [congruence|]. exists sig; auto.
Qed.

Lemma checkAsarIntegrityMacos_onlyLoad
      (fp : Filepath) (h : Host) (appPath : string) (plistContent : list byte) :
  ReadFile h (Join fp [appPath; "Contents"; "Info.plist"]) = ReadOk plistContent ->
  onlyLoadOf (checkAsarIntegrityMacos fp h appPath)
  = (match macExecutableBytes fp h appPath with
     | Some execContent => Bytes.Contains execContent sigOnlyLoadAppFromAsar
     | None => false
     end
     || anySignature restrictionSpellings plistContent false)%bool.
Proof.
  intros Hread. unfold checkAsarIntegrityMacos, macExecutableBytes.
  rewrite Hread. unfold onlyLoadOf; cbn [fst snd].
  destruct (Stat h _); try reflexivity.
  destruct (ReadFile h (Join fp [appPath; "Contents"; "MacOS"; _]));
    try reflexivity.
  destruct (Bytes.Contains content sigOnlyLoadAppFromAsar); reflexivity.
Qed.

(** C5. The restriction verdict is a plain disjunction.  On macOS (readable
    property list) it holds exactly when the marker occurs in the bytes of
    the main executable or one of the three spellings occurs in the property
    list; on Windows (readable executable) exactly when one of the three
    spellings occurs in the executable.  So one spelling in the secondary
    evidence is enough, whatever else is absent. *)
Theorem C5_native_load_restriction_is_or (fp : Filepath) (h : Host) (appPath : string) :
  (forall plistContent,
      ReadFile h (Join fp [appPath; "Contents"; "Info.plist"]) = ReadOk plistContent ->
      (onlyLoadOf (checkAsarIntegrityMacos fp h appPath) = true
       <-> ((exists execContent,
                macExecutableBytes fp h appPath = Some execContent /\
                occursIn sigOnlyLoadAppFromAsar execContent)
            \/ (exists sig, In sig restrictionSpellings /\ occursIn sig plistContent)))
      /\ (forall sig, In sig restrictionSpellings ->
                      occursIn sig plistContent ->
                      onlyLoadOf (checkAsarIntegrityMacos fp h appPath) = true))
  /\
  (forall exeContent,
      ReadFile h (Detector.exePathOf fp appPath) = ReadOk exeContent ->
      (onlyLoadOf (checkAsarIntegrityWindows fp h appPath) = true
       <-> (exists sig, In sig restrictionSpellings /\ occursIn sig exeContent))
      /\ (forall sig, In sig restrictionSpellings ->
                      occursIn sig exeContent ->
                      onlyLoadOf (checkAsarIntegrityWindows fp h appPath) = true)).
Proof.
  split.
  - intros plistContent Hread.
    assert (Hiff : onlyLoadOf (checkAsarIntegrityMacos fp h appPath) = true
       <-> ((exists execContent,
                macExecutableBytes fp h appPath = Some execContent /\
                occursIn sigOnlyLoadAppFromAsar execContent)
            \/ (exists sig, In sig restrictionSpellings /\ occursIn sig plistContent))).
    { rewrite (checkAsarIntegrityMacos_onlyLoad _ _ _ _ Hread).
      rewrite orb_true_iff, anySignature_true_iff.
      split; intros [H | H].
      - left. destruct (macExecutableBytes fp h appPath) as [c|]; [|discriminate].
        exists c. split; [reflexivity | now apply Contains_occursIn].
      - right. destruct H as (sig & Hin & Hc). exists sig.
        split; [exact Hin | now apply Contains_occursIn].
      - left. destruct H as (c & -> & Ho). now apply Contains_occursIn.
      - right. destruct H as (sig & Hin & Ho). exists sig.
        split; [exact Hin | now apply Contains_occursIn]. }
    split; [exact Hiff|].
    intros sig Hin Ho. apply Hiff. right. now exists sig.
  - intros exeContent Hread.
    assert (Hiff : onlyLoadOf (checkAsarIntegrityWindows fp h appPath) = true
       <-> (exists sig, In sig restrictionSpellings /\ occursIn sig exeContent)).
    { unfold checkAsarIntegrityWindows. rewrite Hread.
      unfold onlyLoadOf; cbn [fst snd].
      destruct (Bytes.Contains exeContent sigOnlyLoadAppFromAsar) eqn:E.
      - split; [|reflexivity]. intros _. exists sigOnlyLoadAppFromAsar.
        split; [now left | now apply Contains_occursIn].
      - rewrite anySignature_true_iff. split.
        + intros (sig & Hin & Hc). exists sig. split; [now right|].
          now apply Contains_occursIn.
        + intros (sig & [<- | Hin] & Hc).
          * apply Contains_occursIn in Hc. congruence.
          * exists sig. split; [exact Hin | now apply Contains_occursIn]. }
    split; [exact Hiff|].
    intros sig Hin Ho. apply Hiff. now exists sig.
Qed.

Lemma C5_native_load_restriction_is_or_witness :
  ReadFile Bundles.macHost (Join Sample.slash [Bundles.macApp; "Contents"; "Info.plist"])
  = ReadOk Bundles.macPlist /\
  macExecutableBytes Sample.slash Bundles.macHost Bundles.macApp = Some Bundles.macExe /\
  onlyLoadOf (checkAsarIntegrityMacos Sample.slash Bundles.macHost Bundles.macApp) = true.
Proof.
  split; [reflexivity|]. split; [reflexivity|].
  apply (proj1 (proj1 (C5_native_load_restriction_is_or
                         Sample.slash Bundles.macHost Bundles.macApp)
                      Bundles.macPlist eq_refl)).
  left. exists Bundles.macExe. split; [reflexivity|].
  exists (Bytes.lit ".."), (Bytes.lit ".."). reflexivity.
Defined.

(** ** The shape of a result *)

(** Case analysis on the platform switch of [CheckAsarIntegrityForApp] and
    on what the integrity check of the platform returned. *)
Ltac break_check :=
  repeat match goal with
         | |- context [match GOOS ?h with _ => _ end] =>
             destruct (GOOS h) eqn:?
         | |- context [match checkAsarIntegrityMacos ?fp ?h ?a with _ => _ end] =>
             destruct (checkAsarIntegrityMacos fp h a) as [[? ?] [?|]] eqn:?
         | |- context [match checkAsarIntegrityWindows ?fp ?h ?a with _ => _ end] =>
             destruct (checkAsarIntegrityWindows fp h a) as [[? ?] [?|]] eqn:?
         end;
  simpl.

Section ResultShape.
Variable fp : Filepath.
Variable h : Host.

(** The classifier answers [false] only with an empty version, and fails
    only on a platform that is neither macOS nor Windows. *)
Lemma IsElectronApp_shape (appPath : string) :
  let '(isElectron, version, err) := Detector.IsElectronApp fp h appPath in
  (isElectron = false -> version = "") /\
  (forall e, err = Some e ->
             isElectron = false /\ exists name, GOOS h = otherOS name) /\
  (err = None -> GOOS h = darwin \/ GOOS h = windows).
Proof.
  unfold Detector.IsElectronApp.
  destruct (GOOS h) eqn:Hos.
  - unfold Detector.isElectronAppMacos.
    repeat match goal with
           | |- context [if ?b then _ else _] => destruct b
           | |- context [match Stat h ?p with _ => _ end] => destruct (Stat h p)
           end;
      (split; [intros; (reflexivity || discriminate)
              | split; [intros e He; discriminate | intros _; now left]]).
  - unfold Detector.isElectronAppWindows.
    repeat match goal with
           | |- context [match Stat h ?p with _ => _ end] => destruct (Stat h p)
           end;
      (split; [intros; (reflexivity || discriminate)
              | split; [intros e He; discriminate | intros _; now right]]).
  - split; [reflexivity|]. split; [|discriminate].
    intros e _. split; [reflexivity | now exists name].
Qed.

Lemma checkAsarIntegrityMacos_unreadable (appPath msg : string) :
  ReadFile h (Join fp [appPath; "Contents"; "Info.plist"]) = ReadErr msg ->
  checkAsarIntegrityMacos fp h appPath
  = (false, false, Some ("error reading Info.plist: " ++ msg)%string).
Proof.
  intros H. unfold checkAsarIntegrityMacos. now rewrite H.
Qed.

Lemma checkAsarIntegrityMacos_readable (appPath : string) (content : list byte) :
  ReadFile h (Join fp [appPath; "Contents"; "Info.plist"]) = ReadOk content ->
  errorOf (checkAsarIntegrityMacos fp h appPath) = None.
Proof.
  intros H. unfold checkAsarIntegrityMacos. now rewrite H.
Qed.

Lemma checkAsarIntegrityWindows_unreadable (appPath msg : string) :
  ReadFile h (Detector.exePathOf fp appPath) = ReadErr msg ->
  checkAsarIntegrityWindows fp h appPath
  = (false, false, Some ("error reading executable: " ++ msg)%string).
Proof.
  intros H. unfold checkAsarIntegrityWindows. now rewrite H.
Qed.

Lemma checkAsarIntegrityWindows_readable (appPath : string) (content : list byte) :
  ReadFile h (Detector.exePathOf fp appPath) = ReadOk content ->
  errorOf (checkAsarIntegrityWindows fp h appPath) = None.
Proof.
  intros H. unfold checkAsarIntegrityWindows. now rewrite H.
Qed.

(** A result without the archive: nothing but the classification is set. *)
Lemma CheckAsarIntegrityForApp_no_archive (appPath : string) :
  let r := CheckAsarIntegrityForApp fp h appPath in
  HasAsarFile r = false ->
  AsarIntegrity r = false /\ OnlyLoadFromAsar r = false /\ NodeFiles r = [] /\
  (GOOS h = darwin \/ GOOS h = windows -> IntegrityError r = "").
Proof.
  unfold CheckAsarIntegrityForApp.
  pose proof (IsElectronApp_shape appPath) as Hs.
  destruct (Detector.IsElectronApp fp h appPath) as [[isE v] [e|]]; simpl.
  - destruct Hs as (_ & He & _). destruct (He e eq_refl) as (_ & name & Hos).
    intros _. repeat split; auto. intros [H | H]; congruence.
  - destruct isE; simpl; [|auto].
    destruct (Detector.HasAsarFile fp h appPath); simpl; [|auto].
    break_check; discriminate.
Qed.

(** A result that is not an Electron application: every other field has
    its zero value. *)
Lemma CheckAsarIntegrityForApp_not_electron (appPath : string) :
  let r := CheckAsarIntegrityForApp fp h appPath in
  IsElectron r = false ->
  Version r = "" /\ HasAsarFile r = false /\ AsarIntegrity r = false /\
  OnlyLoadFromAsar r = false /\ NodeFiles r = [].
Proof.
  unfold CheckAsarIntegrityForApp.
  pose proof (IsElectronApp_shape appPath) as Hs.
  destruct (Detector.IsElectronApp fp h appPath) as [[isE v] [e|]]; simpl.
  - auto.
  - destruct Hs as (Hv & _). destruct isE; simpl.
    + destruct (Detector.HasAsarFile fp h appPath); simpl; [|discriminate].
      break_check; discriminate.
    + intros _. rewrite (Hv eq_refl). auto.
Qed.

Lemma scanApp_fields (listNodeFiles : bool) (maxNodeFiles : Z) (app : string) :
  let r := scanApp fp h listNodeFiles maxNodeFiles app in
  let c := CheckAsarIntegrityForApp fp h app in
  Path r = app /\ IsElectron r = IsElectron c /\ Version r = Version c /\
  HasAsarFile r = HasAsarFile c /\ AsarIntegrity r = AsarIntegrity c /\
  OnlyLoadFromAsar r = OnlyLoadFromAsar c /\
  IntegrityError r = IntegrityError c /\
  (IsElectron c = false -> NodeFiles r = NodeFiles c).
Proof.
  assert (HP : Path (CheckAsarIntegrityForApp fp h app) = app).
  { unfold CheckAsarIntegrityForApp.
    destruct (Detector.IsElectronApp fp h app) as [[isE v] [e|]]; simpl; auto.
    destruct isE; simpl; auto.
    destruct (Detector.HasAsarFile fp h app); simpl; auto.
    break_check; reflexivity. }
  unfold scanApp.
  destruct (listNodeFiles && IsElectron (CheckAsarIntegrityForApp fp h app))%bool eqn:E;
    simpl; repeat split; auto.
  intros H. rewrite H, andb_false_r in E. discriminate.
Qed.

End ResultShape.

Section Results.
Variable fp : Filepath.
Variable h : Host.

(** On macOS and Windows the diagnostic of a result is set exactly when the
    archive was found and the primary evidence file cannot be read, and then
    both verdicts are [false]. *)
Lemma CheckAsarIntegrityForApp_diagnostic (appPath : string) :
  GOOS h = darwin \/ GOOS h = windows ->
  let r := CheckAsarIntegrityForApp fp h appPath in
  (IntegrityError r <> ""
   <-> HasAsarFile r = true /\
       exists msg, ReadFile h (primaryEvidencePath fp h appPath) = ReadErr msg) /\
  (IntegrityError r <> "" ->
   AsarIntegrity r = false /\ OnlyLoadFromAsar r = false).
Proof.
  intros Hos r.
  destruct (HasAsarFile r) eqn:Hasar.
  - unfold primaryEvidencePath. destruct Hos as [Hos | Hos]; rewrite Hos.
    + destruct (CheckAsarIntegrityForApp_darwin fp h appPath Hos Hasar)
        as (_ & Hi & Ho & He).
      fold r in Hi, Ho, He. rewrite Hi, Ho, He.
      destruct (ReadFile h (Join fp [appPath; "Contents"; "Info.plist"]))
        as [content | msg] eqn:Hread.
      * rewrite (checkAsarIntegrityMacos_readable _ _ _ _ Hread).
        split; [split|]; try congruence.
        intros (_ & msg & Hm); discriminate.
      * rewrite (checkAsarIntegrityMacos_unreadable _ _ _ _ Hread). simpl.
        split; [split|]; auto; try discriminate.
        intros _. split; [reflexivity | now exists msg].
    + destruct (CheckAsarIntegrityForApp_windows fp h appPath Hos Hasar)
        as (_ & Hi & Ho & He).
      fold r in Hi, Ho, He. rewrite Hi, Ho, He.
      destruct (ReadFile h (Detector.exePathOf fp appPath))
        as [content | msg] eqn:Hread.
      * rewrite (checkAsarIntegrityWindows_readable _ _ _ _ Hread).
        split; [split|]; try congruence.
        intros (_ & msg & Hm); discriminate.
      * rewrite (checkAsarIntegrityWindows_unreadable _ _ _ _ Hread). simpl.
        split; [split|]; auto; try discriminate.
        intros _. split; [reflexivity | now exists msg].
  - destruct (CheckAsarIntegrityForApp_no_archive fp h appPath Hasar)
      as (Hi & Ho & _ & He).
    fold r in Hi, Ho, He. rewrite (He Hos).
    split; [split|]; try congruence.
    intros (Hf & _); discriminate.
Qed.

End Results.

(** ** Results without the archive, results that are not Electron *)






(** C9. A result that is not an Electron application has an empty version,
    no archive, both verdicts [false] and no native module path, and the
    summary table has no line for it. *)
Theorem C9_not_electron_zero_fields
        (fp : Filepath) (h : Host) (listNodeFiles : bool) (maxNodeFiles : Z)
        (app : string) :
  let r := scanApp fp h listNodeFiles maxNodeFiles app in
  IsElectron r = false ->
  Version r = "" /\ HasAsarFile r = false /\ AsarIntegrity r = false /\
  OnlyLoadFromAsar r = false /\ NodeFiles r = [] /\
  summaryRow fp r = None.
Proof.
  intros r Hne.
  destruct (scanApp_fields fp h listNodeFiles maxNodeFiles app)
    as (_ & Hie & Hv & Ha & Hi & Ho & _ & Hn).
  fold r in Hie, Hv, Ha, Hi, Ho, Hn.
  assert (Hc : IsElectron (CheckAsarIntegrityForApp fp h app) = false)
    by now rewrite <- Hie.
  destruct (CheckAsarIntegrityForApp_not_electron fp h app Hc)
    as (Hv' & Ha' & Hi' & Ho' & Hn').
  rewrite Hv, Ha, Hi, Ho, (Hn Hc). repeat (split; [assumption|]).
  unfold summaryRow. now rewrite Hne.
Qed.

Lemma C9_not_electron_zero_fields_witness :
  let r := scanApp Sample.slash Bundles.macHost true 5 "/Applications/Other.app" in
  IsElectron r = false /\
  Version r = "" /\ HasAsarFile r = false /\ AsarIntegrity r = false /\
  OnlyLoadFromAsar r = false /\ NodeFiles r = [] /\
  summaryRow Sample.slash r = None.
Proof.
  intros r. split; [reflexivity|].
  exact (C9_not_electron_zero_fields Sample.slash Bundles.macHost true 5
           "/Applications/Other.app" eq_refl).
Defined.

(** ** The diagnostic *)

(** C7. When the scan reaches the output stage it holds one result per
    candidate.  A result carries a diagnostic exactly when its archive was
    found and the primary evidence file -- the property list on macOS, the
    executable on Windows -- cannot be read; both verdicts of such a result
    are [false]. *)
Theorem C7_evidence_read_failure
        (fp : Filepath) (h : Host) (listNodeFiles : bool) (maxNodeFiles : Z)
        (apps : list string) (results : list AppResult) :
  scanResults fp h listNodeFiles maxNodeFiles apps = Some results ->
  List.length results = List.length apps /\
  forall r, In r results ->
    In (Path r) apps /\
    (IntegrityError r <> ""
     <-> HasAsarFile r = true /\
         exists msg, ReadFile h (primaryEvidencePath fp h (Path r)) = ReadErr msg) /\
    (IntegrityError r <> "" ->
     AsarIntegrity r = false /\ OnlyLoadFromAsar r = false).
Proof.
  unfold scanResults. intros Hres.
  assert (Hos : GOOS h = darwin \/ GOOS h = windows).
  { destruct (GOOS h); [now left | now right | discriminate]. }
  assert (Hmap : results = map (scanApp fp h listNodeFiles maxNodeFiles) apps).
  { destruct (GOOS h); congruence. }
  subst results. split; [apply length_map|].
  intros r Hin. apply in_map_iff in Hin as (app & <- & Hin).
  destruct (scanApp_fields fp h listNodeFiles maxNodeFiles app)
    as (Hp & _ & _ & Ha & Hi & Ho & He & _).
  rewrite Hp, Ha, Hi, Ho, He. split; [exact Hin|].
  exact (CheckAsarIntegrityForApp_diagnostic fp h app Hos).
Qed.

Lemma C7_evidence_read_failure_witness :
  exists r,
    scanResults Sample.slash Bundles.macHostUnreadable true 5 [Bundles.macApp]
    = Some [r] /\
    HasAsarFile r = true /\
    IntegrityError r
    = "error reading Info.plist: open /Applications/Demo.app/Contents/Info.plist: permission denied" /\
    AsarIntegrity r = false /\ OnlyLoadFromAsar r = false.
Proof.
  eexists. split; [reflexivity|]. split; [reflexivity|]. split; [reflexivity|].
  refine (proj2 (proj2 (proj2 (C7_evidence_read_failure Sample.slash
            Bundles.macHostUnreadable true 5 [Bundles.macApp] _ eq_refl) _
            (or_introl eq_refl))) _).
  discriminate.
Defined.

(** ** The version of rule 1 *)

Section RegexpFacts.

Lemma star_inv (R : Type) (cls : byte -> bool) (k : list byte -> option R)
      (s : list byte) (r : R) :
  star cls k s = Some r -> exists s', k s' = Some r.
Proof.
  induction s as [|c s IH]; simpl; intros H.
  - now exists [].
  - destruct (cls c); [|now exists (c :: s)].
    destruct (star cls k s) eqn:E.
    + injection H as ->. now apply IH.
    + now exists (c :: s).
Qed.

Lemma starCapture_inv (R : Type) (cls : byte -> bool)
      (k : list byte -> list byte -> option R) (s : list byte) (r : R) :
  starCapture cls k s = Some r -> exists cap rest, k cap rest = Some r.
Proof.
  revert k; induction s as [|c s IH]; simpl; intros k H.
  - now exists [], [].
  - destruct (cls c); [|now exists [], (c :: s)].
    destruct (starCapture cls (fun cap rest => k (c :: cap) rest) s) eqn:E.
    + injection H as ->. destruct (IH _ E) as (cap & rest & Hk).
      now exists (c :: cap), rest.
    + now exists [], (c :: s).
Qed.

Lemma plusCapture_inv (R : Type) (cls : byte -> bool)
      (k : list byte -> list byte -> option R) (s : list byte) (r : R) :
  plusCapture cls k s = Some r ->
  exists cap rest, cap <> [] /\ k cap rest = Some r.
Proof.
  destruct s as [|c s]; simpl; [discriminate|].
  destruct (cls c); [|discriminate].
  intros H. apply starCapture_inv in H as (cap & rest & Hk).
  exists (c :: cap), rest. split; [discriminate | exact Hk].
Qed.

(** A match of a pattern with a group captures at least one byte. *)
Lemma matchHere_capture (re : Regexp) (cap s c rest : list byte) :
  matchHere re cap s = Some (c, rest) ->
  if hasGroup re then c <> [] else c = cap.
Proof.
  revert cap s; induction re as [|i re IH]; intros cap s H; simpl in H.
  - injection H as Hc Hs. simpl. congruence.
  - destruct i as [bs | cls | cls]; simpl.
    + destruct (stripPrefix bs s); [|discriminate]. now apply IH in H.
    + apply star_inv in H as (s' & H). now apply IH in H.
    + apply plusCapture_inv in H as (cap' & rest' & Hne & H).
      apply IH in H. destruct (hasGroup re); [exact H | now subst].
Qed.

Lemma FindStringSubmatch_shape (re : Regexp) (s : list byte) :
  FindStringSubmatch re s = [] \/
  exists whole m1, FindStringSubmatch re s = [whole; m1] /\
                   (hasGroup re = true -> m1 <> []).
Proof.
  induction s as [|c s IH]; simpl.
  - destruct (matchHere re [] []) as [[cap rest]|] eqn:E; [|now left].
    right. do 2 eexists. split; [reflexivity|].
    intros Hg. apply matchHere_capture in E. now rewrite Hg in E.
  - destruct (matchHere re [] (c :: s)) as [[cap rest]|] eqn:E; [|exact IH].
    right. do 2 eexists. split; [reflexivity|].
    intros Hg. apply matchHere_capture in E. now rewrite Hg in E.
Qed.

Lemma string_of_list_byte_nonempty (bs : list byte) :
  bs <> [] -> string_of_list_byte bs <> "".
Proof.
  destruct bs; [congruence | discriminate].
Qed.

(** [firstCapture] returns the capture of the first pattern that matches. *)
Lemma firstCapture_first (regexes : list Regexp) (content : list byte) (v : string) :
  firstCapture regexes content = Some v <->
  exists before re after whole m1,
    regexes = before ++ re :: after /\
    Forall (fun r => FindStringSubmatch r content = []) before /\
    FindStringSubmatch re content = [whole; m1] /\
    v = string_of_list_byte m1.
Proof.
  induction regexes as [|re regexes IH]; simpl.
  - split; [discriminate|]. intros (before & r & after & w & m & H & _).
    destruct before; discriminate.
  - destruct (FindStringSubmatch_shape re content) as [E | (whole & m1 & E & _)];
      rewrite E.
    + rewrite IH. split.
      * intros (before & r & after & w & m & -> & Hb & Hm & ->).
        exists (re :: before), r, after, w, m. repeat split; auto.
      * intros (before & r & after & w & m & Heq & Hb & Hm & ->).
        destruct before as [|b before]; simpl in Heq; injection Heq as <- ->.
        -- congruence.
        -- inversion Hb; subst. exists before, r, after, w, m. repeat split; auto.
    + split.
      * intros [= <-]. exists [], re, regexes, whole, m1. repeat split; auto.
      * intros (before & r & after & w & m & Heq & Hb & Hm & ->).
        destruct before as [|b before]; simpl in Heq; injection Heq as <- ->.
        -- congruence.
        -- inversion Hb; subst. congruence.
Qed.

Lemma firstCapture_none (regexes : list Regexp) (content : list byte) :
  firstCapture regexes content = None <->
  Forall (fun r => FindStringSubmatch r content = []) regexes.
Proof.
  induction regexes as [|re regexes IH]; simpl.
  - split; auto.
  - destruct (FindStringSubmatch_shape re content) as [E | (whole & m1 & E & _)];
      rewrite E.
    + rewrite IH. split; [now constructor | now inversion 1].
    + split; [discriminate | inversion 1; congruence].
Qed.

Lemma firstCapture_nonempty (regexes : list Regexp) (content : list byte) (v : string) :
  forallb hasGroup regexes = true ->
  firstCapture regexes content = Some v -> v <> "".
Proof.
  induction regexes as [|re regexes IH]; simpl; [discriminate|].
  intros Hg. apply andb_true_iff in Hg as [Hre Hrest].
  destruct (FindStringSubmatch_shape re content) as [E | (whole & m1 & E & Hne)];
    rewrite E.
  - now apply IH.
  - intros [= <-]. apply string_of_list_byte_nonempty. now apply Hne.
Qed.

Lemma versionLoop_firstCapture (regexes : list Regexp) (content : list byte)
      (version : string) :
  versionLoop regexes content version
  = match firstCapture regexes content with
    | Some v => v
    | None => version
    end.
Proof.
  induction regexes as [|re regexes IH]; simpl; [reflexivity|].
  destruct (FindStringSubmatch re content) as [|whole [|m1 ?]]; auto.
Qed.

End RegexpFacts.

(** C3, as the program has it.  In rule 1 (a bundle with the framework and
    a readable property list) the patterns are applied in listed order to
    the property list of the bundle and then, whenever the property list of
    the framework exists and can be read, to that one as well; a match there
    replaces the version found in the bundle.  In each file the first
    pattern that matches decides, its capture is never empty, and without a
    match in either file the version is [unknown]. *)
Theorem C3_rule1_version
        (fp : Filepath) (h : Host) (appPath : string) (bundlePlist : list byte) :
  Strings.HasSuffix appPath ".app" = true ->
  Stat h (Join fp [appPath; "Contents"; "Info.plist"]) <> ErrNotExist ->
  Stat h (Join fp [appPath; "Contents"; "Frameworks";
                   "Electron Framework.framework"]) = StatNil ->
  ReadFile h (Join fp [appPath; "Contents"; "Info.plist"]) = ReadOk bundlePlist ->
  let version := rule1Version bundlePlist (frameworkPlistBytes fp h appPath) in
  Detector.isElectronAppMacos fp h appPath = (true, version, None) /\
  version <> "" /\
  (forall content v,
      frameworkPlistBytes fp h appPath = Some content ->
      firstCapture versionRegexes content = Some v -> version = v) /\
  (forall v,
      (forall content, frameworkPlistBytes fp h appPath = Some content ->
                       firstCapture versionRegexes content = None) ->
      firstCapture versionRegexes bundlePlist = Some v -> version = v) /\
  (Forall (fun re => FindStringSubmatch re bundlePlist = []) versionRegexes ->
   (forall content, frameworkPlistBytes fp h appPath = Some content ->
                    Forall (fun re => FindStringSubmatch re content = [])
                           versionRegexes) ->
   version = "unknown") /\
  (forall content v,
      firstCapture versionRegexes content = Some v <->
      exists before re after whole m1,
        versionRegexes = before ++ re :: after /\
        Forall (fun r => FindStringSubmatch r content = []) before /\
        FindStringSubmatch re content = [whole; m1] /\
        v = string_of_list_byte m1).
Proof.
  intros Happ Hplist Hfw Hread version.
  split; [|split; [|split; [|split; [|split]]]].
  - unfold Detector.isElectronAppMacos. rewrite Happ. cbn [negb].
    destruct (Stat h (Join fp [appPath; "Contents"; "Info.plist"])) eqn:Hs;
      [| congruence |]; rewrite Hfw, Hread;
      unfold version, rule1Version, frameworkPlistBytes;
      (destruct (Stat h (Join fp [Join fp _; "Resources"; "Info.plist"]));
       [destruct (ReadFile h (Join fp [Join fp _; "Resources"; "Info.plist"]))|..]);
      rewrite ?versionLoop_firstCapture;
      repeat match goal with
             | |- context [firstCapture ?r ?c] => destruct (firstCapture r c)
             end; reflexivity.
  - unfold version, rule1Version.
    destruct (frameworkPlistBytes fp h appPath) as [content|].
    + destruct (firstCapture versionRegexes content) eqn:E.
      * now apply firstCapture_nonempty in E.
      * destruct (firstCapture versionRegexes bundlePlist) eqn:E';
          [now apply firstCapture_nonempty in E' | discriminate].
    + destruct (firstCapture versionRegexes bundlePlist) eqn:E';
        [now apply firstCapture_nonempty in E' | discriminate].
  - intros content v Hc Hv. unfold version, rule1Version. now rewrite Hc, Hv.
  - intros v Hnone Hv. unfold version, rule1Version.
    destruct (frameworkPlistBytes fp h appPath) as [content|].
    + now rewrite (Hnone content eq_refl), Hv.
    + now rewrite Hv.
  - intros Hb Hf. unfold version, rule1Version.
    apply firstCapture_none in Hb. rewrite Hb.
    destruct (frameworkPlistBytes fp h appPath) as [content|]; [|reflexivity].
    specialize (Hf content eq_refl). apply firstCapture_none in Hf.
    now rewrite Hf.
  - intros content v. apply firstCapture_first.
Qed.

Lemma C3_rule1_version_witness :
  Strings.HasSuffix Bundles.macApp ".app" = true /\
  frameworkPlistBytes Sample.slash Bundles.macHost Bundles.macApp
  = Some Bundles.macFrameworkPlist /\
  firstCapture versionRegexes Bundles.macPlist = Some "1.0" /\
  firstCapture versionRegexes Bundles.macFrameworkPlist = Some "2.0" /\
  Detector.isElectronAppMacos Sample.slash Bundles.macHost Bundles.macApp
  = (true, "2.0", None).
Proof.
  repeat (split; [reflexivity|]).
  refine (proj1 (C3_rule1_version Sample.slash Bundles.macHost Bundles.macApp
                   Bundles.macPlist eq_refl _ eq_refl eq_refl)).
  discriminate.
Defined.

(** C3, as stated, fails: the bundle below resolves [1.0] from its own
    property list, the property list of the framework is read all the same,
    and the version returned is the [2.0] found there. *)
Lemma C3_rule1_version_counterexample :
  Strings.HasSuffix Bundles.macApp ".app" = true /\
  Stat Bundles.macHost
       (Join Sample.slash [Bundles.macApp; "Contents"; "Frameworks";
                           "Electron Framework.framework"]) = StatNil /\
  ReadFile Bundles.macHost (Join Sample.slash [Bundles.macApp; "Contents"; "Info.plist"])
  = ReadOk Bundles.macPlist /\
  frameworkPlistBytes Sample.slash Bundles.macHost Bundles.macApp
  = Some Bundles.macFrameworkPlist /\
  specRule1Version Bundles.macPlist (Some Bundles.macFrameworkPlist) = "1.0" /\
  Detector.isElectronAppMacos Sample.slash Bundles.macHost Bundles.macApp
  = (true, "2.0", None) /\
  Detector.isElectronAppMacos Sample.slash Bundles.macHost Bundles.macApp
  <> (true, specRule1Version Bundles.macPlist (Some Bundles.macFrameworkPlist), None).
Proof.
  repeat (split; [reflexivity|]).
  vm_compute. discriminate.
Qed.

(** ** The native modules *)

Section EntryInduction.
Variable P : entry -> Prop.
Hypothesis HFile : forall name, P (File name).
Hypothesis HDirectory :
  forall name children, Forall P children -> P (Directory name children).
Hypothesis HUnreadableDir : forall name, P (UnreadableDir name).
Hypothesis HBroken : forall name, P (Broken name).

Lemma entry_nested_ind : forall e : entry, P e.
Proof.
  fix IH 1. intros [name | name children | name | name].
  - apply HFile.
  - apply HDirectory.
    induction children as [|c rest IHrest]; constructor; [apply IH | exact IHrest].
  - apply HUnreadableDir.
  - apply HBroken.
Qed.

End EntryInduction.

Section Cap.
Variable fp : Filepath.
Variable maxFiles : Z.

Lemma capReached_true (l : list string) :
  Detector.capReached maxFiles l = true
  <-> (0 < maxFiles)%Z /\ Z.to_nat maxFiles <= List.length l.
Proof.
  unfold Detector.capReached.
  rewrite andb_true_iff, Z.ltb_lt, Z.leb_le. lia.
Qed.

Lemma capReached_false (l : list string) :
  Detector.capReached maxFiles l = false
  <-> (maxFiles <= 0)%Z \/ List.length l < Z.to_nat maxFiles.
Proof.
  unfold Detector.capReached.
  rewrite andb_false_iff, Z.ltb_ge, Z.leb_gt. lia.
Qed.

Lemma kept_snoc (acc : list string) (path : string) :
  Detector.capReached maxFiles acc = false ->
  kept maxFiles (acc ++ [path]) = acc ++ [path].
Proof.
  intros Hacc. unfold kept.
  destruct (Detector.capReached maxFiles (acc ++ [path])) eqn:E; [|reflexivity].
  apply capReached_true in E as [Hpos Hlen].
  apply capReached_false in Hacc as [Hacc | Hacc]; [lia|].
  rewrite length_app in Hlen; simpl in Hlen.
  apply firstn_all2. rewrite length_app; simpl. lia.
Qed.

Lemma capReached_app (l l' : list string) :
  Detector.capReached maxFiles l = true ->
  Detector.capReached maxFiles (l ++ l') = true /\
  firstn (Z.to_nat maxFiles) (l ++ l') = firstn (Z.to_nat maxFiles) l.
Proof.
  intros H. apply capReached_true in H as [Hpos Hlen]. split.
  - apply capReached_true. rewrite length_app. lia.
  - rewrite firstn_app. replace (Z.to_nat maxFiles - List.length l) with 0 by lia.
    simpl. apply app_nil_r.
Qed.

Lemma walk_nodeFiles (e : entry) :
  forall (path : string) (acc : list string),
    Detector.capReached maxFiles acc = false ->
    walk fp (Detector.nodeFileVisitor maxFiles) path e acc
    = walkOutcome maxFiles e (acc ++ nodeFilesUnder fp path e).
Proof.
  induction e as [name | name children IH | name | name] using entry_nested_ind;
    intros path acc Hacc; unfold walkOutcome.
  - cbn [walk nodeFilesUnder Detector.nodeFileVisitor].
    destruct (Detector.isNodeFile (mkFileInfo name false)).
    + pose proof kept_snoc as Hk. specialize (Hk acc path Hacc). unfold kept in Hk.
      destruct (Detector.capReached maxFiles (acc ++ [path])); now rewrite ?Hk.
    + now rewrite app_nil_r, Hacc.
  - cbn [walk nodeFilesUnder Detector.nodeFileVisitor].
    change (Detector.isNodeFile (mkFileInfo name true)) with false. cbv iota beta.
    revert acc Hacc.
    induction IH as [|c rest Hc Hrest IHrest]; intros acc Hacc.
    + now rewrite app_nil_r, Hacc.
    + rewrite app_assoc.
      set (found := nodeFilesUnder fp (Join fp [path; entryName c]) c).
      assert (Hwalk : walk fp (Detector.nodeFileVisitor maxFiles)
                           (Join fp [path; entryName c]) c acc
                      = walkOutcome maxFiles c (acc ++ found)) by now apply Hc.
      unfold walkOutcome in Hwalk.
      destruct (Detector.capReached maxFiles (acc ++ found)) eqn:Ecap.
      * pose proof capReached_app as Happ.
        rewrite (proj1 (Happ (acc ++ found) _ Ecap)),
                (proj2 (Happ (acc ++ found) _ Ecap)). clear Happ.
        destruct c; try (rewrite Hwalk; reflexivity).
        (* a broken entry finds nothing *)
        unfold found in Ecap; simpl in Ecap. rewrite app_nil_r in Ecap. congruence.
      * specialize (IHrest _ Ecap).
        destruct c; cbn [entryIsDir];
          try (rewrite Hwalk; cbv iota beta; exact IHrest).
        cbn [Detector.nodeFileVisitor]. cbv iota beta.
        unfold found in IHrest; simpl in IHrest. rewrite app_nil_r in IHrest.
        unfold found. simpl. rewrite app_nil_r. exact IHrest.
  - cbn. now rewrite app_nil_r, Hacc.
  - cbn. now rewrite app_nil_r, Hacc.
Qed.

Variable h : Host.

Lemma Walk_nodeFiles (root : string) (acc : list string) :
  Detector.capReached maxFiles acc = false ->
  fst (Walk fp (Detector.nodeFileVisitor maxFiles) root (Tree h root) acc)
  = kept maxFiles (acc ++ nodeFilesUnder fp root (Tree h root)).
Proof.
  intros Hacc. unfold Walk. rewrite (walk_nodeFiles _ _ _ Hacc).
  unfold walkOutcome, kept.
  destruct (Detector.capReached maxFiles (acc ++ _)); [reflexivity|].
  destruct (Tree h root); reflexivity.
Qed.

Lemma capReached_kept (l : list string) :
  Detector.capReached maxFiles (kept maxFiles l) = Detector.capReached maxFiles l.
Proof.
  unfold kept. destruct (Detector.capReached maxFiles l) eqn:E; [|exact E].
  apply capReached_true. apply capReached_true in E as [Hpos Hlen].
  split; [exact Hpos|]. rewrite firstn_length_le; lia.
Qed.

(** The loop over the roots: what it returns and which roots it walks. *)
Lemma searchLoop_spec (roots : list string) :
  forall acc walked : list string,
    Detector.capReached maxFiles acc = false ->
    let all := acc ++ nodeFilesOfRoots fp h roots in
    let out := Detector.searchLoop fp h maxFiles roots acc walked in
    fst out = kept maxFiles all /\
    (Detector.capReached maxFiles all = false -> snd out = walked ++ roots) /\
    (Detector.capReached maxFiles all = true ->
     exists k,
       k < List.length roots /\
       snd out = walked ++ firstn (S k) roots /\
       Detector.capReached maxFiles
         (acc ++ nodeFilesOfRoots fp h (firstn k roots)) = false /\
       Detector.capReached maxFiles
         (acc ++ nodeFilesOfRoots fp h (firstn (S k) roots)) = true).
Proof.
  induction roots as [|root rest IH]; intros acc walked Hacc; cbn zeta.
  - simpl. rewrite !app_nil_r. unfold kept. rewrite Hacc.
    split; [reflexivity|]. split; [reflexivity | discriminate].
  - cbn [Detector.searchLoop nodeFilesOfRoots flat_map].
    fold (nodeFilesOfRoots fp h rest).
    pose proof (Walk_nodeFiles root acc Hacc) as HW.
    destruct (Walk fp (Detector.nodeFileVisitor maxFiles) root (Tree h root) acc)
      as [nodeFiles err]. cbn [fst] in HW. subst nodeFiles.
    rewrite capReached_kept.
    set (found := nodeFilesUnder fp root (Tree h root)).
    rewrite app_assoc.
    destruct (Detector.capReached maxFiles (acc ++ found)) eqn:Ecap.
    + pose proof capReached_app as Happ.
      destruct (Happ (acc ++ found) (nodeFilesOfRoots fp h rest) Ecap) as [Hc Hf].
      cbn [fst snd]. unfold kept. rewrite Ecap, Hc, Hf.
      split; [reflexivity|]. split; [discriminate|].
      intros _. exists 0. cbn [firstn nodeFilesOfRoots flat_map List.length].
      rewrite !app_nil_r. repeat split; auto. lia.
    + assert (Hk : kept maxFiles (acc ++ found) = acc ++ found)
        by (unfold kept; now rewrite Ecap).
      rewrite Hk.
      destruct (IH (acc ++ found) (walked ++ [root]) Ecap) as (Hfst & Hfree & Hcap).
      split; [exact Hfst|]. split.
      * intros Hall. rewrite (Hfree Hall). now rewrite <- app_assoc.
      * intros Hall. destruct (Hcap Hall) as (k & Hlt & Hsnd & Hbefore & Hafter).
        exists (S k). cbn [List.length]. split; [lia|]. split.
        { rewrite Hsnd, <- app_assoc. reflexivity. }
        change (firstn (S (S k)) (root :: rest)) with (root :: firstn (S k) rest).
        change (firstn (S k) (root :: rest)) with (root :: firstn k rest).
        cbn [nodeFilesOfRoots flat_map].
        fold (nodeFilesOfRoots fp h (firstn k rest)).
        fold (nodeFilesOfRoots fp h (firstn (S k) rest)).
        fold found. rewrite !app_assoc. split; assumption.
Qed.

End Cap.

(** C6. With a cap [N > 0] and more than [N] native modules below the
    search roots, [FindNodeFiles] returns exactly [N] paths: the first [N]
    of the modules in traversal order, which is the order in which the
    unlimited search returns them.  [filepath.Walk] is called on the roots up
    to the first one at which the modules found so far reach [N], and on no
    root after it. *)
Theorem C6_node_files_cap
        (fp : Filepath) (h : Host) (appPath : string) (roots : list string) (N : Z) :
  Detector.searchRoots fp h appPath = Some roots ->
  (0 < N)%Z ->
  (N < Z.of_nat (List.length (nodeFilesOfRoots fp h roots)))%Z ->
  let found := Detector.FindNodeFiles fp h appPath N in
  let walked := snd (Detector.FindNodeFilesTraced fp h appPath N) in
  Detector.FindNodeFiles fp h appPath 0 = nodeFilesOfRoots fp h roots /\
  found = firstn (Z.to_nat N) (nodeFilesOfRoots fp h roots) /\
  Z.of_nat (List.length found) = N /\
  exists k,
    (k < List.length roots)%nat /\
    walked = firstn (S k) roots /\
    (Z.of_nat (List.length (nodeFilesOfRoots fp h (firstn k roots))) < N)%Z /\
    (N <= Z.of_nat (List.length (nodeFilesOfRoots fp h (firstn (S k) roots))))%Z.
Proof.
  intros Hroots Hpos Hmore found walked.
  unfold found, walked, Detector.FindNodeFiles, Detector.FindNodeFilesTraced.
  rewrite Hroots.
  assert (Hnil : forall m, (0 < m)%Z -> Detector.capReached m [] = false).
  { intros m Hm. apply capReached_false. right. simpl. lia. }
  assert (Hall : Detector.capReached N (nodeFilesOfRoots fp h roots) = true).
  { apply capReached_true. split; lia. }
  split; [|split; [|split]].
  - assert (H0 : Detector.capReached 0 [] = false) by reflexivity.
    destruct (searchLoop_spec fp 0 h roots [] [] H0) as (Hfst & _). cbn [app] in Hfst.
    rewrite Hfst. unfold kept.
    assert (Hfree : Detector.capReached 0 (nodeFilesOfRoots fp h roots) = false)
      by reflexivity.
    now rewrite Hfree.
  - destruct (searchLoop_spec fp N h roots [] [] (Hnil N Hpos)) as (Hfst & _).
    cbn [app] in Hfst. rewrite Hfst. unfold kept. now rewrite Hall.
  - destruct (searchLoop_spec fp N h roots [] [] (Hnil N Hpos)) as (Hfst & _).
    cbn [app] in Hfst. rewrite Hfst. unfold kept. rewrite Hall.
    rewrite firstn_length_le; lia.
  - destruct (searchLoop_spec fp N h roots [] [] (Hnil N Hpos)) as (_ & _ & Hcap).
    cbn [app] in Hcap. destruct (Hcap Hall) as (k & Hlt & Hsnd & Hbefore & Hafter).
    exists k. split; [exact Hlt|]. split; [exact Hsnd|].
    apply capReached_false in Hbefore. apply capReached_true in Hafter.
    lia.
Qed.

Lemma C6_node_files_cap_witness :
  let roots := ["/Applications/Demo.app/Contents/Resources";
                "/Applications/Demo.app/Contents/Frameworks"] in
  Detector.searchRoots Sample.slash Bundles.macHost Bundles.macApp = Some roots /\
  nodeFilesOfRoots Sample.slash Bundles.macHost roots
  = ["/Applications/Demo.app/Contents/Resources/a.node";
     "/Applications/Demo.app/Contents/Resources/app.asar.unpacked/B.NODE";
     "/Applications/Demo.app/Contents/Resources/z.node";
     "/Applications/Demo.app/Contents/Frameworks/f.node"] /\
  Detector.FindNodeFiles Sample.slash Bundles.macHost Bundles.macApp 2
  = ["/Applications/Demo.app/Contents/Resources/a.node";
     "/Applications/Demo.app/Contents/Resources/app.asar.unpacked/B.NODE"] /\
  snd (Detector.FindNodeFilesTraced Sample.slash Bundles.macHost Bundles.macApp 2)
  = ["/Applications/Demo.app/Contents/Resources"].
Proof.
  intros roots. split; [reflexivity|]. split; [reflexivity|].
  split; [|reflexivity].
  destruct (C6_node_files_cap Sample.slash Bundles.macHost Bundles.macApp roots 2
              eq_refl eq_refl eq_refl) as (_ & Hfound & _).
  rewrite Hfound. reflexivity.
Defined.

(** ** The end-to-end scenarios of the specification *)

(** Scenario 1: the framework, [ElectronVersion] 27.0.2, no archive. *)
Example scenario_framework_without_archive :
  let r := scanApp Sample.slash macHostNoArchive true 5 Bundles.macApp in
  r = mkAppResult Bundles.macApp true "27.0.2" false false false [] "" /\
  summaryRow Sample.slash r
  = Some (mkSummaryRow "Demo.app" "27.0.2" "No" "N/A" "N/A").
Proof.
  split; reflexivity.
Qed.

(** Scenario 2: the archive and the integrity key without its sub-keys. *)
Example scenario_integrity_key_without_subkeys :
  let r := CheckAsarIntegrityForApp Sample.slash Bundles.macHost Bundles.macApp in
  HasAsarFile r = true /\ AsarIntegrity r = true /\ OnlyLoadFromAsar r = true /\
  IntegrityError r = "".
Proof.
  repeat split; reflexivity.
Qed.

(** Scenario 3: [sha256] and [Integrity] without the strong marker score 2;
    [sha256] alone scores 1. *)
Example scenario_two_baseline_markers :
  windowsMatchCount (Bytes.lit "..sha256..Integrity..") = 2%Z /\
  AsarIntegrity
    (CheckAsarIntegrityForApp Sample.backslash Bundles.winHost Bundles.winApp)
  = true /\
  windowsMatchCount (Bytes.lit "..sha256..") = 1%Z /\
  AsarIntegrity
    (CheckAsarIntegrityForApp
       Sample.backslash
       (Sample.host windows
          [(Bundles.winApp, Bytes.lit "..sha256..")]
          ["C:\Apps\Demo\resources"; "C:\Apps\Demo\resources\app.asar"] [])
       Bundles.winApp)
  = false.
Proof.
  repeat split; reflexivity.
Qed.

(** * Further properties *)

(** ** Walks that collect *)

Section Collecting.
Variable fp : Filepath.
Variable sel : string -> FileInfo -> bool.
Variable visitor : WalkFunc (list string).

(** The callback appends the paths [sel] selects and never stops or skips. *)
Hypothesis visitor_visit :
  forall path info acc,
    visitor path (Visit info) acc
    = (if sel path info then acc ++ [path] else acc, WalkNil).
Hypothesis visitor_failed :
  forall path info acc, visitor path (Failed info) acc = (acc, WalkNil).

Lemma walk_collect (e : entry) :
  forall (path : string) (acc : list string),
    walk fp visitor path e acc = (acc ++ collect fp sel path e, WalkNil).
Proof.
  induction e as [name | name children IH | name | name] using entry_nested_ind;
    intros path acc; cbn [walk collect].
  - rewrite visitor_visit. destruct (sel path _); now rewrite ?app_nil_r.
  - rewrite visitor_visit.
    set (here := if sel path (mkFileInfo name true) then [path] else []).
    assert (Hhere : (if sel path (mkFileInfo name true) then acc ++ [path] else acc)
                    = acc ++ here).
    { unfold here. destruct (sel path _); now rewrite ?app_nil_r. }
    rewrite Hhere, app_assoc. generalize (acc ++ here). clear Hhere here acc.
    induction IH as [|c rest Hc Hrest IHrest]; intros acc.
    + now rewrite app_nil_r.
    + rewrite app_assoc, <- IHrest.
      destruct c; try (rewrite Hc; reflexivity).
      rewrite visitor_failed. cbn [collect]. now rewrite app_nil_r.
  - rewrite visitor_failed. now rewrite app_nil_r.
  - rewrite visitor_failed. now rewrite app_nil_r.
Qed.

Lemma Walk_collect (root : string) (e : entry) (acc : list string) :
  Walk fp visitor root e acc = (acc ++ collect fp sel root e, WalkNil).
Proof.
  unfold Walk. now rewrite walk_collect.
Qed.

Lemma scanDirs_collect (h : Host) (searchDirs : list string) :
  forall acc,
    Scanner.scanDirs fp h visitor searchDirs acc
    = (acc ++ candidatesOf fp h sel searchDirs, None).
Proof.
  unfold candidatesOf, walkedDirs.
  induction searchDirs as [|dir rest IH]; intros acc; cbn [Scanner.scanDirs filter].
  - cbn. now rewrite app_nil_r.
  - destruct (Stat h dir); cbn [flat_map];
      rewrite ?Walk_collect, IH, ?app_assoc; reflexivity.
Qed.

End Collecting.

Section CollectFacts.
Variable fp : Filepath.
Variable sel : string -> FileInfo -> bool.

Lemma collect_below (path : string) (children : list entry) (c : entry) (p : string) :
  In c children ->
  In p (collect fp sel (Join fp [path; entryName c]) c) ->
  In p ((fix below (names : list entry) : list string :=
           match names with
           | [] => []
           | c :: rest =>
               collect fp sel (Join fp [path; entryName c]) c ++ below rest
           end) children).
Proof.
  induction children as [|d rest IH]; intros Hin Hp; [destruct Hin|].
  apply in_or_app. destruct Hin as [-> | Hin]; [now left | right; now apply IH].
Qed.

Lemma below_collect (path : string) (children : list entry) (p : string) :
  In p ((fix below (names : list entry) : list string :=
           match names with
           | [] => []
           | c :: rest =>
               collect fp sel (Join fp [path; entryName c]) c ++ below rest
           end) children) ->
  exists c, In c children /\
            In p (collect fp sel (Join fp [path; entryName c]) c).
Proof.
  induction children as [|d rest IH]; intros Hin; [destruct Hin|].
  apply in_app_or in Hin as [Hin | Hin].
  - exists d. split; [now left | exact Hin].
  - destruct (IH Hin) as (c & Hc & Hp). exists c. split; [now right | exact Hp].
Qed.

(** A path is collected exactly when the walk comes to an entry under that
    path, can examine it, and [sel] selects it. *)
Lemma collect_Visits (e : entry) :
  forall path p,
    In p (collect fp sel path e) <->
    exists e' info,
      Visits fp path e p e' /\ entryInfo e' = Some info /\ sel p info = true.
Proof.
  induction e as [name | name children IH | name | name] using entry_nested_ind;
    intros path p; cbn [collect].
  - split.
    + destruct (sel path (mkFileInfo name false)) eqn:E; [|intros []].
      intros [<- | []]. exists (File name), (mkFileInfo name false).
      repeat split; [constructor | exact E].
    + intros (e' & info & Hv & Hi & Hs). inversion Hv; subst.
      cbn in Hi. injection Hi as <-. rewrite Hs. now left.
  - split.
    + intros Hin. apply in_app_or in Hin as [Hin | Hin].
      * destruct (sel path (mkFileInfo name true)) eqn:E; [|destruct Hin].
        destruct Hin as [<- | []].
        exists (Directory name children), (mkFileInfo name true).
        repeat split; [constructor | exact E].
      * apply below_collect in Hin as (c & Hc & Hin).
        rewrite Forall_forall in IH. apply (IH c Hc) in Hin.
        destruct Hin as (e' & info & Hv & Hi & Hs).
        exists e', info. repeat split; auto.
        apply VisitsBelow with c; assumption.
    + intros (e' & info & Hv & Hi & Hs). apply in_or_app.
      inversion Hv as [| ? ? ? c ? ? Hc Hv']; subst.
      * left. cbn in Hi. injection Hi as <-. rewrite Hs. now left.
      * right. apply collect_below with c; [assumption|].
        rewrite Forall_forall in IH. apply (IH c Hc).
        exists e', info. auto.
  - split; [intros [] |]. intros (e' & info & Hv & Hi & _).
    inversion Hv; subst. discriminate.
  - split; [intros [] |]. intros (e' & info & Hv & Hi & _).
    inversion Hv; subst. discriminate.
Qed.

End CollectFacts.

(** ** The scan for candidates *)

Section ScanFacts.
Variable fp : Filepath.
Variable h : Host.
Variable Getenv : string -> string.

Lemma appBundleVisitor_collects (path : string) (info : FileInfo) (acc : list string) :
  Scanner.appBundleVisitor path (Visit info) acc
  = (if isAppBundle path info then acc ++ [path] else acc, WalkNil).
Proof.
  unfold Scanner.appBundleVisitor, isAppBundle.
  destruct (IsDir info && Strings.HasSuffix path ".app")%bool; reflexivity.
Qed.

Lemma exeVisitor_collects (path : string) (info : FileInfo) (acc : list string) :
  Scanner.exeVisitor fp h path (Visit info) acc
  = (if isExeWithResources fp h path info then acc ++ [path] else acc, WalkNil).
Proof.
  unfold Scanner.exeVisitor, isExeWithResources.
  destruct (negb (IsDir info) && Strings.HasSuffix path ".exe")%bool;
    [|reflexivity].
  destruct (Stat h _); reflexivity.
Qed.

Lemma scanForElectronAppsMacos_eq :
  Scanner.scanForElectronAppsMacos fp h Getenv
  = (candidatesOf fp h isAppBundle (Scanner.macosSearchDirs fp Getenv), None).
Proof.
  unfold Scanner.scanForElectronAppsMacos.
  rewrite (scanDirs_collect fp isAppBundle Scanner.appBundleVisitor);
    [reflexivity | apply appBundleVisitor_collects | reflexivity].
Qed.

Lemma scanForElectronAppsWindows_eq :
  Scanner.scanForElectronAppsWindows fp h Getenv
  = (candidatesOf fp h (isExeWithResources fp h)
                  (Scanner.windowsSearchDirs fp Getenv), None).
Proof.
  unfold Scanner.scanForElectronAppsWindows.
  rewrite (scanDirs_collect fp (isExeWithResources fp h) (Scanner.exeVisitor fp h));
    [reflexivity | apply exeVisitor_collects | reflexivity].
Qed.

Lemma candidatesOf_In (sel : string -> FileInfo -> bool)
      (searchDirs : list string) (p : string) :
  In p (candidatesOf fp h sel searchDirs) <->
  exists dir e' info,
    In dir searchDirs /\ Stat h dir <> ErrNotExist /\
    Visits fp dir (Tree h dir) p e' /\
    entryInfo e' = Some info /\ sel p info = true.
Proof.
  unfold candidatesOf, walkedDirs. rewrite in_flat_map. split.
  - intros (dir & Hdir & Hp). apply filter_In in Hdir as [Hdir Hstat].
    apply collect_Visits in Hp as (e' & info & Hv & Hi & Hs).
    exists dir, e', info. repeat split; auto.
    intros E. rewrite E in Hstat. discriminate.
  - intros (dir & e' & info & Hdir & Hstat & Hv & Hi & Hs).
    exists dir. split.
    + apply filter_In. split; [exact Hdir|]. destruct (Stat h dir); congruence.
    + apply collect_Visits. exists e', info. auto.
Qed.

End ScanFacts.

(** The scan never returns an error, on any platform and for any file
    system: its closures answer every entry, readable or not, with [nil].
    So [main] reaches its output stage on macOS and on Windows, and on no
    other platform. *)
Theorem ScanForElectronApps_never_fails
        (fp : Filepath) (h : Host) (Getenv : string -> string)
        (listNodeFiles : bool) (maxNodeFiles : Z) :
  snd (Scanner.ScanForElectronApps fp h Getenv) = None /\
  (mainResults fp h Getenv listNodeFiles maxNodeFiles = None
   <-> exists name, GOOS h = otherOS name) /\
  (forall results,
      mainResults fp h Getenv listNodeFiles maxNodeFiles = Some results ->
      map Path results = fst (Scanner.ScanForElectronApps fp h Getenv)).
Proof.
  assert (Hscan : snd (Scanner.ScanForElectronApps fp h Getenv) = None).
  { unfold Scanner.ScanForElectronApps.
    destruct (GOOS h);
      rewrite ?scanForElectronAppsMacos_eq, ?scanForElectronAppsWindows_eq;
      reflexivity. }
  split; [exact Hscan|].
  unfold mainResults.
  destruct (Scanner.ScanForElectronApps fp h Getenv) as [apps err].
  cbn [snd fst] in *. subst err. split.
  - destruct (GOOS h) eqn:Hos.
    + split; [discriminate | intros (name & Hn); discriminate].
    + split; [discriminate | intros (name & Hn); discriminate].
    + split; [intros _; now exists name | reflexivity].
  - intros results Hres.
    assert (Hmap : results = map (scanApp fp h listNodeFiles maxNodeFiles) apps).
    { destruct (GOOS h); congruence. }
    subst results. rewrite map_map.
    rewrite <- (map_id apps) at 2. apply map_ext. intros app.
    now destruct (scanApp_fields fp h listNodeFiles maxNodeFiles app) as (Hp & _).
Qed.

Lemma scanForElectronAppsMacos_In
        (fp : Filepath) (h : Host) (Getenv : string -> string) (p : string) :
  In p (fst (Scanner.scanForElectronAppsMacos fp h Getenv)) <->
  exists dir name children,
    In dir ["/Applications"; Join fp [Getenv "HOME"; "Applications"]] /\
    Stat h dir <> ErrNotExist /\
    Visits fp dir (Tree h dir) p (Directory name children) /\
    Strings.HasSuffix p ".app" = true.
Proof.
  rewrite scanForElectronAppsMacos_eq. cbn [fst]. rewrite candidatesOf_In.
  unfold Scanner.macosSearchDirs, isAppBundle. split.
  - intros (dir & e' & info & Hdir & Hstat & Hv & Hi & Hs).
    apply andb_true_iff in Hs as [Hd Hsuf].
    destruct e' as [n | n cs | n | n]; cbn in Hi; try discriminate;
      injection Hi as <-; cbn in Hd; try discriminate.
    exists dir, n, cs. auto.
  - intros (dir & name & children & Hdir & Hstat & Hv & Hsuf).
    exists dir, (Directory name children), (mkFileInfo name true).
    repeat split; auto.
Qed.

(** On macOS the candidates are exactly the directories that a walk of an
    existing search directory comes to, could list, and whose path ends in
    [.app] -- bundles inside bundles included, bundles that cannot be
    listed and files named like a bundle excluded. *)
Theorem scanForElectronAppsMacos_candidates
        (fp : Filepath) (h : Host) (Getenv : string -> string) (p : string) :
  In p (fst (Scanner.scanForElectronAppsMacos fp h Getenv)) <->
  exists dir name children,
    In dir ["/Applications"; Join fp [Getenv "HOME"; "Applications"]] /\
    Stat h dir <> ErrNotExist /\
    Visits fp dir (Tree h dir) p (Directory name children) /\
    Strings.HasSuffix p ".app" = true.
Proof.
  apply scanForElectronAppsMacos_In.
Qed.

Lemma scanForElectronAppsWindows_In
        (fp : Filepath) (h : Host) (Getenv : string -> string) (p : string) :
  In p (fst (Scanner.scanForElectronAppsWindows fp h Getenv)) <->
  exists dir name,
    In dir [Join fp [Getenv "ProgramFiles"];
            Join fp [Getenv "ProgramFiles(x86)"];
            Join fp [Getenv "LOCALAPPDATA"; "Programs"]] /\
    Stat h dir <> ErrNotExist /\
    Visits fp dir (Tree h dir) p (File name) /\
    Strings.HasSuffix p ".exe" = true /\
    Stat h (Join fp [Dir fp p; "resources"]) = StatNil.
Proof.
  rewrite scanForElectronAppsWindows_eq. cbn [fst]. rewrite candidatesOf_In.
  unfold Scanner.windowsSearchDirs, isExeWithResources. split.
  - intros (dir & e' & info & Hdir & Hstat & Hv & Hi & Hs).
    apply andb_true_iff in Hs as [Hs Hres].
    apply andb_true_iff in Hs as [Hd Hsuf].
    destruct e' as [n | n cs | n | n]; cbn in Hi; try discriminate;
      injection Hi as <-; cbn in Hd; try discriminate.
    exists dir, n. repeat split; auto.
    destruct (Stat h (Join fp [Dir fp p; "resources"])); congruence.
  - intros (dir & name & Hdir & Hstat & Hv & Hsuf & Hres).
    exists dir, (File name), (mkFileInfo name false).
    repeat split; auto. cbn. now rewrite Hsuf, Hres.
Qed.

(** On Windows the candidates are exactly the non-directory entries that a
    walk of an existing search directory comes to, whose path ends in
    [.exe] and beside which [os.Stat] finds a [resources] entry. *)
Theorem scanForElectronAppsWindows_candidates
        (fp : Filepath) (h : Host) (Getenv : string -> string) (p : string) :
  In p (fst (Scanner.scanForElectronAppsWindows fp h Getenv)) <->
  exists dir name,
    In dir [Join fp [Getenv "ProgramFiles"];
            Join fp [Getenv "ProgramFiles(x86)"];
            Join fp [Getenv "LOCALAPPDATA"; "Programs"]] /\
    Stat h dir <> ErrNotExist /\
    Visits fp dir (Tree h dir) p (File name) /\
    Strings.HasSuffix p ".exe" = true /\
    Stat h (Join fp [Dir fp p; "resources"]) = StatNil.
Proof.
  apply scanForElectronAppsWindows_In.
Qed.

(** Every candidate of the Windows scan is its own executable path and has
    the [resources] directory the classifier asks for, so the classifier
    accepts it exactly when the executable is not reported missing and one
    of the two archives exists. *)
Theorem windows_candidate_classification
        (fp : Filepath) (h : Host) (Getenv : string -> string) (p : string) :
  In p (fst (Scanner.scanForElectronAppsWindows fp h Getenv)) ->
  let resourcesDir := Join fp [Dir fp p; "resources"] in
  Detector.exePathOf fp p = p /\
  (fst (fst (Detector.isElectronAppWindows fp h p)) = true
   <-> Stat h p <> ErrNotExist /\
       (Stat h (Join fp [resourcesDir; "app.asar"]) = StatNil \/
        Stat h (Join fp [resourcesDir; "electron.asar"]) = StatNil)).
Proof.
  intros Hin resourcesDir.
  apply scanForElectronAppsWindows_In in Hin
    as (dir & name & _ & _ & _ & Hsuf & Hres).
  assert (Hexe : Detector.exePathOf fp p = p)
    by (unfold Detector.exePathOf; now rewrite Hsuf).
  split; [exact Hexe|].
  unfold Detector.isElectronAppWindows. rewrite Hexe.
  fold resourcesDir in Hres |- *.
  destruct (Stat h p); rewrite ?Hres; cbn [fst];
    try (split; [discriminate | intros [Hn _]; congruence]);
    (destruct (Stat h (Join fp [resourcesDir; "app.asar"]));
     [split; [intros _; split; [discriminate | now left] | reflexivity] | |]);
    (destruct (Stat h (Join fp [resourcesDir; "electron.asar"]));
     cbn [fst];
     [split; [intros _; split; [discriminate | now right] | reflexivity] | |]);
    (split; [discriminate | intros [_ [H | H]]; discriminate]).
Qed.

Lemma windows_candidate_classification_witness :
  In "C:\Program Files\Demo\Demo.exe"
     (fst (Scanner.scanForElectronAppsWindows
             Sample.backslash ScanSamples.winScanHost ScanSamples.getenv)) /\
  fst (fst (Detector.isElectronAppWindows
              Sample.backslash ScanSamples.winScanHost
              "C:\Program Files\Demo\Demo.exe")) = true.
Proof.
  assert (Hin : In "C:\Program Files\Demo\Demo.exe"
                   (fst (Scanner.scanForElectronAppsWindows
                           Sample.backslash ScanSamples.winScanHost
                           ScanSamples.getenv)))
    by (left; reflexivity).
  split; [exact Hin|].
  apply (proj2 (windows_candidate_classification
                  Sample.backslash ScanSamples.winScanHost ScanSamples.getenv
                  "C:\Program Files\Demo\Demo.exe" Hin)).
  split; [discriminate | left; reflexivity].
Defined.

(** Every candidate of the macOS scan passes the bundle-suffix test of the
    classifier, which therefore accepts it exactly when its property list
    is not reported missing and the framework or the archive exists. *)
Theorem macos_candidate_classification
        (fp : Filepath) (h : Host) (Getenv : string -> string) (p : string) :
  In p (fst (Scanner.scanForElectronAppsMacos fp h Getenv)) ->
  Strings.HasSuffix p ".app" = true /\
  (fst (fst (Detector.isElectronAppMacos fp h p)) = true
   <-> Stat h (Join fp [p; "Contents"; "Info.plist"]) <> ErrNotExist /\
       (Stat h (Join fp [p; "Contents"; "Frameworks";
                         "Electron Framework.framework"]) = StatNil \/
        Stat h (Join fp [p; "Contents"; "Resources"; "app.asar"]) = StatNil)).
Proof.
  intros Hin.
  apply scanForElectronAppsMacos_In in Hin
    as (dir & name & children & _ & _ & _ & Hsuf).
  split; [exact Hsuf|].
  unfold Detector.isElectronAppMacos. rewrite Hsuf. cbn [negb].
  destruct (Stat h (Join fp [p; "Contents"; "Info.plist"])); cbn [fst];
    try (split; [discriminate | intros [Hn _]; congruence]);
    (destruct (Stat h (Join fp [p; "Contents"; "Frameworks"; _]));
     [split; [intros _; split; [discriminate | now left] | reflexivity] | |]);
    (destruct (Stat h (Join fp [p; "Contents"; "Resources"; "app.asar"]));
     cbn [fst];
     [split; [intros _; split; [discriminate | now right] | reflexivity] | |]);
    (split; [discriminate | intros [_ [H | H]]; discriminate]).
Qed.

Lemma macos_candidate_classification_witness :
  In "/Applications/Demo.app/Contents/Frameworks/Demo Helper.app"
     (fst (Scanner.scanForElectronAppsMacos
             Sample.slash ScanSamples.macScanHost ScanSamples.getenv)) /\
  Strings.HasSuffix "/Applications/Demo.app/Contents/Frameworks/Demo Helper.app"
                    ".app" = true.
Proof.
  assert (Hin : In "/Applications/Demo.app/Contents/Frameworks/Demo Helper.app"
                   (fst (Scanner.scanForElectronAppsMacos
                           Sample.slash ScanSamples.macScanHost
                           ScanSamples.getenv)))
    by (right; left; reflexivity).
  split; [exact Hin|].
  exact (proj1 (macos_candidate_classification
                  Sample.slash ScanSamples.macScanHost ScanSamples.getenv
                  "/Applications/Demo.app/Contents/Frameworks/Demo Helper.app"
                  Hin)).
Defined.

(** ** The version of an Electron result *)

Section VersionFacts.

Lemma starCapture_class (R : Type) (cls : byte -> bool)
      (k : list byte -> list byte -> option R) (s : list byte) (r : R) :
  starCapture cls k s = Some r ->
  exists cap rest, Forall (fun b => cls b = true) cap /\ k cap rest = Some r.
Proof.
  revert k; induction s as [|c s IH]; simpl; intros k H.
  - now exists [], [].
  - destruct (cls c) eqn:Ec; [|now exists [], (c :: s)].
    destruct (starCapture cls (fun cap rest => k (c :: cap) rest) s) eqn:E.
    + injection H as ->. destruct (IH _ E) as (cap & rest & Hcap & Hk).
      exists (c :: cap), rest. split; [now constructor | exact Hk].
    + now exists [], (c :: s).
Qed.

Lemma plusCapture_class (R : Type) (cls : byte -> bool)
      (k : list byte -> list byte -> option R) (s : list byte) (r : R) :
  plusCapture cls k s = Some r ->
  exists cap rest, Forall (fun b => cls b = true) cap /\ k cap rest = Some r.
Proof.
  destruct s as [|c s]; simpl; [discriminate|].
  destruct (cls c) eqn:Ec; [|discriminate].
  intros H. apply starCapture_class in H as (cap & rest & Hcap & Hk).
  exists (c :: cap), rest. split; [now constructor | exact Hk].
Qed.

(** The text of group 1 consists of bytes of the class of the group. *)
Lemma matchHere_class (re : Regexp) :
  forall (cls0 : byte -> bool) (cap s c rest : list byte),
    matchHere re cap s = Some (c, rest) ->
    Forall (fun b => cls0 b = true) cap ->
    Forall (fun b => groupClass re cls0 b = true) c.
Proof.
  induction re as [|i re IH]; intros cls0 cap s c rest H Hcap; simpl in H.
  - injection H as <- _. exact Hcap.
  - destruct i as [bs | cls | cls]; cbn [groupClass].
    + destruct (stripPrefix bs s); [|discriminate]. exact (IH _ _ _ _ _ H Hcap).
    + apply star_inv in H as (s' & H). exact (IH _ _ _ _ _ H Hcap).
    + apply plusCapture_class in H as (cap' & rest' & Hcap' & H).
      exact (IH _ _ _ _ _ H Hcap').
Qed.

Lemma FindStringSubmatch_class (re : Regexp) (s whole m1 : list byte)
      (more : list (list byte)) :
  FindStringSubmatch re s = whole :: m1 :: more ->
  Forall (fun b => groupClass re (fun _ => true) b = true) m1.
Proof.
  induction s as [|c s IH]; simpl.
  - destruct (matchHere re [] []) as [[cap rest]|] eqn:E; [|discriminate].
    intros [= _ <- _]. eapply matchHere_class; [exact E | constructor].
  - destruct (matchHere re [] (c :: s)) as [[cap rest]|] eqn:E; [|exact IH].
    intros [= _ <- _]. eapply matchHere_class; [exact E | constructor].
Qed.

Lemma digitOrDot_quoteFree (b : byte) : digitOrDot b = true -> b <> x22.
Proof. intros H ->. discriminate H. Qed.

Lemma notQuote_quoteFree (b : byte) : notQuote b = true -> b <> x22.
Proof. intros H ->. discriminate H. Qed.

Lemma patterns_quoteFree :
  Forall quoteFreePattern
         (versionRegexes ++ versionPatterns
          ++ [packageElectronRegex; packageElectronVersionRegex;
              electronSlashRegex]).
Proof.
  repeat constructor;
    solve [apply digitOrDot_quoteFree | apply notQuote_quoteFree].
Qed.

Lemma goodVersion_unknown : goodVersion "unknown".
Proof.
  split; [discriminate|]. unfold quoteFree. cbn.
  repeat constructor; discriminate.
Qed.

Lemma goodVersion_capture (re : Regexp) (s whole m1 : list byte)
      (more : list (list byte)) :
  quoteFreePattern re ->
  FindStringSubmatch re s = whole :: m1 :: more ->
  goodVersion (string_of_list_byte m1).
Proof.
  intros [Hg Hq] Hfind. split.
  - destruct (FindStringSubmatch_shape re s) as [E | (w & m & E & Hne)];
      rewrite E in Hfind; [discriminate|].
    injection Hfind as _ <- _. apply string_of_list_byte_nonempty. now apply Hne.
  - unfold quoteFree. rewrite list_byte_of_string_of_list_byte.
    apply FindStringSubmatch_class in Hfind.
    eapply Forall_impl; [|exact Hfind]. exact Hq.
Qed.

Lemma goodVersion_submatchOr (re : Regexp) (s : list byte) (v : string) :
  quoteFreePattern re -> goodVersion v ->
  goodVersion (Detector.submatchOr (FindStringSubmatch re s) v).
Proof.
  intros Hre Hv. unfold Detector.submatchOr.
  destruct (FindStringSubmatch re s) as [|whole [|m1 more]] eqn:E; auto.
  eapply goodVersion_capture; eauto.
Qed.

Lemma goodVersion_versionLoop (regexes : list Regexp) (s : list byte) (v : string) :
  Forall quoteFreePattern regexes -> goodVersion v ->
  goodVersion (versionLoop regexes s v).
Proof.
  intros Hres Hv. induction Hres as [|re regexes Hre Hres IH]; simpl; [exact Hv|].
  destruct (FindStringSubmatch re s) as [|whole [|m1 more]] eqn:E; auto.
  eapply goodVersion_capture; eauto.
Qed.

Lemma quoteFree_versionRegexes : Forall quoteFreePattern versionRegexes.
Proof.
  pose proof patterns_quoteFree as H. apply Forall_app in H. tauto.
Qed.

Lemma quoteFree_versionPatterns : Forall quoteFreePattern versionPatterns.
Proof.
  pose proof patterns_quoteFree as H. apply Forall_app in H as [_ H].
  apply Forall_app in H. tauto.
Qed.

Lemma quoteFree_single :
  quoteFreePattern packageElectronRegex /\
  quoteFreePattern packageElectronVersionRegex /\
  quoteFreePattern electronSlashRegex.
Proof.
  pose proof patterns_quoteFree as H. apply Forall_app in H as [_ H].
  apply Forall_app in H as [_ H].
  inversion H as [|? ? H1 H']; subst. inversion H' as [|? ? H2 H'']; subst.
  inversion H'' as [|? ? H3 ?]; subst. auto.
Qed.

Lemma goodVersion_versionFromExe (s : list byte) (v : string) :
  goodVersion v -> goodVersion (Detector.versionFromExe s v).
Proof.
  intros Hv. unfold Detector.versionFromExe.
  destruct quoteFree_single as (_ & _ & Hslash).
  destruct (FindStringSubmatch electronSlashRegex s) as [|whole [|m1 more]] eqn:E;
    try (apply goodVersion_versionLoop; [apply quoteFree_versionPatterns | exact Hv]).
  eapply goodVersion_capture; eauto.
Qed.

End VersionFacts.

Section ResultFacts.
Variable fp : Filepath.
Variable h : Host.

Lemma IsElectronApp_goodVersion (appPath : string) :
  let '(isElectron, version, _) := Detector.IsElectronApp fp h appPath in
  isElectron = true -> goodVersion version.
Proof.
  destruct quoteFree_single as (Hpkg & Hpkgv & Hslash).
  unfold Detector.IsElectronApp.
  destruct (GOOS h); [| |discriminate].
  - unfold Detector.isElectronAppMacos.
    repeat match goal with
           | |- context [if ?b then _ else _] => destruct b
           | |- context [match Stat h ?p with _ => _ end] => destruct (Stat h p)
           | |- context [match ReadFile h ?p with _ => _ end] =>
               destruct (ReadFile h p)
           end;
      try discriminate; intros _;
      repeat first [ apply goodVersion_unknown
                   | apply goodVersion_versionLoop
                   | apply goodVersion_submatchOr
                   | apply quoteFree_versionRegexes
                   | assumption ].
  - unfold Detector.isElectronAppWindows.
    repeat match goal with
           | |- context [match Stat h ?p with _ => _ end] => destruct (Stat h p)
           | |- context [match ReadFile h ?p with _ => _ end] =>
               destruct (ReadFile h p)
           | |- context [match FindStringSubmatch packageElectronRegex ?c with _ => _ end] =>
               let E := fresh "E" in
               destruct (FindStringSubmatch packageElectronRegex c)
                 as [|? [|? ?]] eqn:E
           end;
      try discriminate; intros _;
      repeat first [ apply goodVersion_unknown
                   | apply goodVersion_versionFromExe
                   | apply goodVersion_submatchOr
                   | (eapply goodVersion_capture; [|eassumption]; assumption)
                   | assumption ].
Qed.

(** What a result takes from the classifier. *)
Lemma CheckAsarIntegrityForApp_classifier (appPath : string) :
  let r := CheckAsarIntegrityForApp fp h appPath in
  let '(isElectron, version, err) := Detector.IsElectronApp fp h appPath in
  match err with
  | Some _ => IsElectron r = false /\ Version r = ""
  | None => IsElectron r = isElectron /\ Version r = version
  end.
Proof.
  unfold CheckAsarIntegrityForApp.
  destruct (Detector.IsElectronApp fp h appPath) as [[isE v] [e|]]; simpl; auto.
  destruct isE; simpl; auto.
  destruct (Detector.HasAsarFile fp h appPath); simpl; auto.
  break_check; auto.
Qed.

End ResultFacts.

(** A result is an Electron application exactly when its version is not
    empty, and no version holds a double quote: a positive answer of the
    classifier carries [unknown] or the text of a capturing group, which is
    never empty and never matches a quote. *)
Theorem electron_iff_version
        (fp : Filepath) (h : Host) (listNodeFiles : bool) (maxNodeFiles : Z)
        (app : string) :
  let r := scanApp fp h listNodeFiles maxNodeFiles app in
  (IsElectron r = true <-> Version r <> "") /\ quoteFree (Version r).
Proof.
  intros r.
  destruct (scanApp_fields fp h listNodeFiles maxNodeFiles app)
    as (_ & Hie & Hv & _).
  fold r in Hie, Hv. rewrite Hie, Hv.
  pose proof (CheckAsarIntegrityForApp_classifier fp h app) as Hc.
  pose proof (IsElectronApp_goodVersion fp h app) as Hg.
  pose proof (IsElectronApp_shape fp h app) as Hs.
  cbv zeta in Hc.
  destruct (Detector.IsElectronApp fp h app) as [[isE v] [e|]].
  - destruct Hc as [-> ->]. split; [split; [discriminate | congruence]|].
    constructor.
  - destruct Hc as [-> ->]. destruct Hs as (Hempty & _).
    destruct isE.
    + destruct (Hg eq_refl) as [Hne Hq]. split; [tauto | exact Hq].
    + rewrite (Hempty eq_refl). split; [split; [discriminate | congruence]|].
      constructor.
Qed.

Lemma scanApp_flags_nested
        (fp : Filepath) (h : Host) (listNodeFiles : bool) (maxNodeFiles : Z)
        (app : string) :
  let r := scanApp fp h listNodeFiles maxNodeFiles app in
  (HasAsarFile r = true -> IsElectron r = true) /\
  (AsarIntegrity r = true -> HasAsarFile r = true) /\
  (OnlyLoadFromAsar r = true -> HasAsarFile r = true) /\
  (NodeFiles r <> [] -> IsElectron r = true).
Proof.
  intros r.
  destruct (scanApp_fields fp h listNodeFiles maxNodeFiles app)
    as (_ & Hie & _ & Ha & Hi & Ho & _ & Hn).
  fold r in Hie, Ha, Hi, Ho, Hn. rewrite Hie, Ha, Hi, Ho.
  pose proof (CheckAsarIntegrityForApp_not_electron fp h app) as Hne.
  pose proof (CheckAsarIntegrityForApp_no_archive fp h app) as Hna.
  cbv zeta in Hne, Hna.
  split; [|split; [|split]].
  - destruct (IsElectron (CheckAsarIntegrityForApp fp h app)); [reflexivity|].
    destruct (Hne eq_refl) as (_ & -> & _). discriminate.
  - destruct (HasAsarFile (CheckAsarIntegrityForApp fp h app)); [reflexivity|].
    destruct (Hna eq_refl) as (-> & _). discriminate.
  - destruct (HasAsarFile (CheckAsarIntegrityForApp fp h app)); [reflexivity|].
    destruct (Hna eq_refl) as (_ & -> & _). discriminate.
  - destruct (IsElectron (CheckAsarIntegrityForApp fp h app)) eqn:E;
      [reflexivity|].
    intros Hnodes. exfalso. apply Hnodes. rewrite (Hn eq_refl).
    now destruct (Hne eq_refl) as (_ & _ & _ & _ & ->).
Qed.

(** The flags of a result are nested: the archive is reported only for an
    Electron application, a verdict is [true] only with the archive, and
    native modules are listed only for an Electron application. *)
Theorem result_flags_nested
        (fp : Filepath) (h : Host) (listNodeFiles : bool) (maxNodeFiles : Z)
        (app : string) :
  let r := scanApp fp h listNodeFiles maxNodeFiles app in
  (HasAsarFile r = true -> IsElectron r = true) /\
  (AsarIntegrity r = true -> HasAsarFile r = true) /\
  (OnlyLoadFromAsar r = true -> HasAsarFile r = true) /\
  (NodeFiles r <> [] -> IsElectron r = true).
Proof.
  apply scanApp_flags_nested.
Qed.

(** On macOS an Electron result without the archive was classified by the
    framework: the archive rule of the classifier and the archive check ask
    for the same path. *)
Theorem macos_electron_without_archive
        (fp : Filepath) (h : Host) (appPath : string) :
  GOOS h = darwin ->
  IsElectron (CheckAsarIntegrityForApp fp h appPath) = true ->
  HasAsarFile (CheckAsarIntegrityForApp fp h appPath) = false ->
  Stat h (Join fp [appPath; "Contents"; "Frameworks";
                   "Electron Framework.framework"]) = StatNil /\
  Stat h (Join fp [appPath; "Contents"; "Resources"; "app.asar"]) <> StatNil.
Proof.
  intros Hos. unfold CheckAsarIntegrityForApp, Detector.IsElectronApp,
    Detector.HasAsarFile, Detector.GetAsarPath.
  rewrite Hos. unfold Detector.isElectronAppMacos.
  destruct (negb (Strings.HasSuffix appPath ".app")); [discriminate|].
  destruct (Stat h (Join fp [appPath; "Contents"; "Info.plist"]));
    try discriminate;
    (destruct (Stat h (Join fp [appPath; "Contents"; "Frameworks"; _])) eqn:Efw;
     destruct (Stat h (Join fp [appPath; "Contents"; "Resources"; "app.asar"]))
       eqn:Easar;
     cbn [negb IsElectron HasAsarFile setIsElectron setVersion setHasAsarFile];
     try discriminate;
     try (intros _ _; split; [reflexivity | discriminate]);
     try (break_check; discriminate)).
Qed.

Lemma macos_electron_without_archive_witness :
  GOOS macHostNoArchive = darwin /\
  IsElectron (CheckAsarIntegrityForApp Sample.slash macHostNoArchive Bundles.macApp)
  = true /\
  HasAsarFile (CheckAsarIntegrityForApp Sample.slash macHostNoArchive Bundles.macApp)
  = false /\
  Stat macHostNoArchive
       (Join Sample.slash [Bundles.macApp; "Contents"; "Frameworks";
                           "Electron Framework.framework"]) = StatNil.
Proof.
  repeat (split; [reflexivity|]).
  exact (proj1 (macos_electron_without_archive
                  Sample.slash macHostNoArchive Bundles.macApp
                  eq_refl eq_refl eq_refl)).
Defined.

(** ** The native modules, for every cap *)

Section NodeFileFacts.
Variable fp : Filepath.

Lemma nodeFilesUnder_collect (e : entry) :
  forall path,
    nodeFilesUnder fp path e
    = collect fp (fun _ info => Detector.isNodeFile info) path e.
Proof.
  induction e as [name | name children IH | name | name] using entry_nested_ind;
    intros path; cbn [nodeFilesUnder collect]; try reflexivity.
  change (Detector.isNodeFile (mkFileInfo name true)) with false.
  cbn [app].
  induction IH as [|c rest Hc Hrest IHrest]; [reflexivity|].
  now rewrite Hc, IHrest.
Qed.

Lemma nodeFilesUnder_Visits (path : string) (e : entry) (p : string) :
  In p (nodeFilesUnder fp path e) <->
  exists name,
    Visits fp path e p (File name) /\
    Strings.HasSuffix (Strings.ToLower name) ".node" = true.
Proof.
  rewrite nodeFilesUnder_collect, collect_Visits. split.
  - intros (e' & info & Hv & Hi & Hs).
    destruct e' as [n | n cs | n | n]; cbn in Hi; try discriminate;
      injection Hi as <-; try discriminate.
    exists n. split; [exact Hv | exact Hs].
  - intros (name & Hv & Hs).
    exists (File name), (mkFileInfo name false). repeat split; auto.
Qed.

Lemma nodeFilesOfRoots_Visits (h : Host) (roots : list string) (p : string) :
  In p (nodeFilesOfRoots fp h roots) <->
  exists root name,
    In root roots /\
    Visits fp root (Tree h root) p (File name) /\
    Strings.HasSuffix (Strings.ToLower name) ".node" = true.
Proof.
  unfold nodeFilesOfRoots. rewrite in_flat_map. split.
  - intros (root & Hroot & Hp). apply nodeFilesUnder_Visits in Hp as (name & Hv & Hs).
    exists root, name. auto.
  - intros (root & name & Hroot & Hv & Hs). exists root. split; [exact Hroot|].
    apply nodeFilesUnder_Visits. now exists name.
Qed.

(** For every cap the search returns what the cap keeps of the modules
    below the roots. *)
Lemma FindNodeFiles_kept (h : Host) (appPath : string) (roots : list string)
      (maxFiles : Z) :
  Detector.searchRoots fp h appPath = Some roots ->
  Detector.FindNodeFiles fp h appPath maxFiles
  = kept maxFiles (nodeFilesOfRoots fp h roots).
Proof.
  intros Hroots. unfold Detector.FindNodeFiles, Detector.FindNodeFilesTraced.
  rewrite Hroots.
  assert (Hnil : Detector.capReached maxFiles [] = false).
  { apply capReached_false. cbn. lia. }
  now destruct (searchLoop_spec fp maxFiles h roots [] [] Hnil) as (-> & _).
Qed.

End NodeFileFacts.

(** With a cap of zero, or a negative one, the search has no limit: it
    returns every native module below the search roots, in traversal order,
    and walks every root. *)
Theorem FindNodeFiles_unlimited
        (fp : Filepath) (h : Host) (appPath : string) (roots : list string)
        (maxFiles : Z) :
  Detector.searchRoots fp h appPath = Some roots ->
  (maxFiles <= 0)%Z ->
  Detector.FindNodeFilesTraced fp h appPath maxFiles
  = (nodeFilesOfRoots fp h roots, roots).
Proof.
  intros Hroots Hmax. unfold Detector.FindNodeFilesTraced. rewrite Hroots.
  assert (Hfree : forall l, Detector.capReached maxFiles l = false).
  { intros l. apply capReached_false. now left. }
  destruct (searchLoop_spec fp maxFiles h roots [] [] (Hfree [])) as (Hfst & Hsnd & _).
  cbn [app] in Hfst, Hsnd. specialize (Hsnd (Hfree _)).
  unfold kept in Hfst. rewrite Hfree in Hfst.
  destruct (Detector.searchLoop fp h maxFiles roots [] []) as [found walked].
  cbn [fst snd] in Hfst, Hsnd. now subst.
Qed.

Lemma FindNodeFiles_unlimited_witness :
  Detector.searchRoots Sample.slash Bundles.macHost Bundles.macApp
  = Some ["/Applications/Demo.app/Contents/Resources";
          "/Applications/Demo.app/Contents/Frameworks"] /\
  List.length (Detector.FindNodeFiles Sample.slash Bundles.macHost Bundles.macApp (-1))
  = 4.
Proof.
  split; [reflexivity|].
  unfold Detector.FindNodeFiles.
  rewrite (FindNodeFiles_unlimited Sample.slash Bundles.macHost Bundles.macApp
             ["/Applications/Demo.app/Contents/Resources";
              "/Applications/Demo.app/Contents/Frameworks"] (-1) eq_refl);
    [reflexivity | discriminate].
Defined.

(** With a cap [N > 0] the search never returns more than [N] paths, what
    it returns is the first [N] paths of the unlimited search, and when
    fewer than [N] modules exist it returns them all and walks every root. *)
Theorem FindNodeFiles_bounded
        (fp : Filepath) (h : Host) (appPath : string) (roots : list string) (N : Z) :
  Detector.searchRoots fp h appPath = Some roots ->
  (0 < N)%Z ->
  let found := Detector.FindNodeFiles fp h appPath N in
  let all := Detector.FindNodeFiles fp h appPath 0 in
  (Z.of_nat (List.length found) <= N)%Z /\
  found = firstn (Z.to_nat N) all /\
  ((Z.of_nat (List.length all) < N)%Z ->
   Detector.FindNodeFilesTraced fp h appPath N = (all, roots)).
Proof.
  intros Hroots Hpos found all. unfold found, all.
  rewrite !(FindNodeFiles_kept fp h appPath roots _ Hroots).
  assert (H0 : kept 0 (nodeFilesOfRoots fp h roots) = nodeFilesOfRoots fp h roots)
    by reflexivity.
  rewrite H0. clear H0.
  set (l := nodeFilesOfRoots fp h roots).
  assert (Hkept : kept N l = firstn (Z.to_nat N) l).
  { unfold kept. destruct (Detector.capReached N l) eqn:E; [reflexivity|].
    apply capReached_false in E as [E | E]; [lia|].
    symmetry. apply firstn_all2. lia. }
  rewrite Hkept. split; [|split; [reflexivity|]].
  - rewrite length_firstn. lia.
  - intros Hfew. unfold Detector.FindNodeFilesTraced. rewrite Hroots.
    assert (Hnil : Detector.capReached N [] = false).
    { apply capReached_false. cbn. lia. }
    assert (Hfree : Detector.capReached N l = false).
    { apply capReached_false. right. lia. }
    destruct (searchLoop_spec fp N h roots [] [] Hnil) as (Hfst & Hsnd & _).
    cbn [app] in Hfst, Hsnd. fold l in Hfst, Hsnd. specialize (Hsnd Hfree).
    unfold kept in Hfst. rewrite Hfree in Hfst.
    destruct (Detector.searchLoop fp h N roots [] []) as [f w].
    cbn [fst snd] in Hfst, Hsnd. now subst.
Qed.

Lemma FindNodeFiles_bounded_witness :
  Z.of_nat (List.length
              (Detector.FindNodeFiles Sample.slash Bundles.macHost Bundles.macApp 3))
  = 3%Z /\
  Detector.FindNodeFilesTraced Sample.slash Bundles.macHost Bundles.macApp 9
  = (Detector.FindNodeFiles Sample.slash Bundles.macHost Bundles.macApp 0,
     ["/Applications/Demo.app/Contents/Resources";
      "/Applications/Demo.app/Contents/Frameworks"]).
Proof.
  split; [reflexivity|].
  apply (FindNodeFiles_bounded Sample.slash Bundles.macHost Bundles.macApp
           ["/Applications/Demo.app/Contents/Resources";
            "/Applications/Demo.app/Contents/Frameworks"] 9 eq_refl eq_refl).
  reflexivity.
Defined.

(** The unlimited search returns exactly the paths of the non-directory
    entries, reached through directories that could be listed, whose
    lower-cased name ends in [.node]; a capped search returns only such
    paths.  A directory named like a module, an entry [Lstat] fails on and
    whatever lies below a directory that cannot be listed are never
    returned. *)
Theorem FindNodeFiles_sound_complete
        (fp : Filepath) (h : Host) (appPath : string) (roots : list string)
        (p : string) :
  Detector.searchRoots fp h appPath = Some roots ->
  let isModule :=
    exists root name,
      In root roots /\
      Visits fp root (Tree h root) p (File name) /\
      Strings.HasSuffix (Strings.ToLower name) ".node" = true in
  (In p (Detector.FindNodeFiles fp h appPath 0) <-> isModule) /\
  (forall maxFiles, In p (Detector.FindNodeFiles fp h appPath maxFiles) -> isModule).
Proof.
  intros Hroots isModule. unfold isModule. split.
  - rewrite (FindNodeFiles_kept fp h appPath roots 0 Hroots).
    apply nodeFilesOfRoots_Visits.
  - intros maxFiles. rewrite (FindNodeFiles_kept fp h appPath roots _ Hroots).
    intros Hin. apply nodeFilesOfRoots_Visits.
    unfold kept in Hin. destruct (Detector.capReached maxFiles _); [|exact Hin].
    rewrite <- (firstn_skipn (Z.to_nat maxFiles) (nodeFilesOfRoots fp h roots)).
    apply in_or_app. now left.
Qed.

Lemma FindNodeFiles_sound_complete_witness :
  Detector.searchRoots Sample.slash Bundles.macHost Bundles.macApp
  = Some ["/Applications/Demo.app/Contents/Resources";
          "/Applications/Demo.app/Contents/Frameworks"] /\
  In "/Applications/Demo.app/Contents/Resources/app.asar.unpacked/B.NODE"
     (Detector.FindNodeFiles Sample.slash Bundles.macHost Bundles.macApp 0).
Proof.
  split; [reflexivity|].
  apply (proj1 (FindNodeFiles_sound_complete
                  Sample.slash Bundles.macHost Bundles.macApp _
                  "/Applications/Demo.app/Contents/Resources/app.asar.unpacked/B.NODE"
                  eq_refl)).
  exists "/Applications/Demo.app/Contents/Resources", "B.NODE".
  split; [now left|]. split; [|reflexivity].
  eapply VisitsBelow with (c := Directory "app.asar.unpacked" _);
    [right; left; reflexivity|].
  eapply VisitsBelow with (c := File "B.NODE"); [left; reflexivity|].
  apply VisitsHere.
Defined.

(** On Windows the second search root, the [resources] directory, lies
    inside the first, the directory of the executable.  When the file system
    shows the same [resources] tree at both places, the unlimited search
    walks it twice: its result is the modules below the first root followed
    by those below [resources], and each of the latter is among the former
    too. *)
Theorem windows_resources_listed_twice
        (fp : Filepath) (h : Host) (appPath name : string)
        (children : list entry) (c : entry) :
  GOOS h = windows ->
  let dirPath := Dir fp (Detector.exePathOf fp appPath) in
  let resources := Join fp [dirPath; "resources"] in
  Tree h dirPath = Directory name children ->
  In c children ->
  entryName c = "resources" ->
  Tree h resources = c ->
  Detector.FindNodeFiles fp h appPath 0
  = nodeFilesUnder fp dirPath (Tree h dirPath)
    ++ nodeFilesUnder fp resources c /\
  (forall p, In p (nodeFilesUnder fp resources c) ->
             In p (nodeFilesUnder fp dirPath (Tree h dirPath))).
Proof.
  intros Hos dirPath resources Hdir Hc Hname Hres.
  assert (Hroots : Detector.searchRoots fp h appPath = Some [dirPath; resources]).
  { unfold Detector.searchRoots. now rewrite Hos. }
  split.
  - rewrite (FindNodeFiles_kept fp h appPath _ 0 Hroots).
    unfold nodeFilesOfRoots. cbn [flat_map]. rewrite Hres, app_nil_r.
    reflexivity.
  - intros p Hp. rewrite Hdir.
    apply nodeFilesUnder_Visits in Hp as (n & Hv & Hs).
    apply nodeFilesUnder_Visits. exists n. split; [|exact Hs].
    apply VisitsBelow with c; [exact Hc|]. rewrite Hname. exact Hv.
Qed.

Lemma windows_resources_listed_twice_witness :
  Detector.FindNodeFiles Sample.backslash ScanSamples.winScanHost
                         "C:\Program Files\Demo\Demo.exe" 0
  = ["C:\Program Files\Demo\resources\x.node";
     "C:\Program Files\Demo\resources\x.node"].
Proof.
  rewrite (proj1 (windows_resources_listed_twice
                    Sample.backslash ScanSamples.winScanHost
                    "C:\Program Files\Demo\Demo.exe" "Demo"
                    [File "Demo.exe";
                     Directory "resources" [File "app.asar"; File "x.node"]]
                    (Directory "resources" [File "app.asar"; File "x.node"])
                    eq_refl eq_refl (or_intror (or_introl eq_refl))
                    eq_refl eq_refl)).
  reflexivity.
Defined.

(** ** The verdicts, once more *)

Lemma strong_marker_holds_Integrity (content : list byte) :
  Bytes.Contains content EnableEmbeddedAsarIntegrityValidation = true ->
  Bytes.Contains content (Bytes.lit "Integrity") = true.
Proof.
  intros H. apply Contains_occursIn.
  apply occursIn_trans with EnableEmbeddedAsarIntegrityValidation;
    [|now apply Contains_occursIn].
  exists (Bytes.lit "EnableEmbeddedAsar"), (Bytes.lit "Validation"). reflexivity.
Qed.

(** On Windows the weights do not matter: integrity is reported exactly
    when the strong marker occurs or two of the three baseline markers do.
    The count itself lies between 0 and 5. *)
Theorem windows_integrity_without_weights
        (fp : Filepath) (h : Host) (appPath : string) (exeContent : list byte) :
  ReadFile h (Detector.exePathOf fp appPath) = ReadOk exeContent ->
  let electronAsar := occursIn (Bytes.lit "ElectronAsar") exeContent in
  let integrity := occursIn (Bytes.lit "Integrity") exeContent in
  let sha256 := occursIn (Bytes.lit "sha256") exeContent in
  let strong := occursIn EnableEmbeddedAsarIntegrityValidation exeContent in
  (integrityOf (checkAsarIntegrityWindows fp h appPath) = true
   <-> strong \/ (electronAsar /\ integrity) \/ (electronAsar /\ sha256)
       \/ (integrity /\ sha256)) /\
  (0 <= windowsMatchCount exeContent <= 5)%Z.
Proof.
  intros Hread electronAsar integrity sha256 strong.
  unfold electronAsar, integrity, sha256, strong.
  rewrite <- !Contains_occursIn.
  unfold checkAsarIntegrityWindows. rewrite Hread. unfold integrityOf; cbn [fst].
  rewrite windowsMatchCount_specScore. unfold specScore.
  fold EnableEmbeddedAsarIntegrityValidation.
  pose proof (strong_marker_holds_Integrity exeContent) as Hs.
  destruct (Bytes.Contains exeContent EnableEmbeddedAsarIntegrityValidation);
    [rewrite (Hs eq_refl)|];
    destruct (Bytes.Contains exeContent (Bytes.lit "ElectronAsar"));
    destruct (Bytes.Contains exeContent (Bytes.lit "sha256"));
    try destruct (Bytes.Contains exeContent (Bytes.lit "Integrity"));
    cbn; (split; [|lia]); split; intros H; try reflexivity; try discriminate;
    intuition discriminate.
Qed.

Lemma windows_integrity_without_weights_witness :
  ReadFile Bundles.winHost (Detector.exePathOf Sample.backslash Bundles.winApp)
  = ReadOk Bundles.winExe /\
  integrityOf (checkAsarIntegrityWindows Sample.backslash Bundles.winHost
                                         Bundles.winApp) = true.
Proof.
  split; [reflexivity|].
  apply (proj1 (windows_integrity_without_weights
                  Sample.backslash Bundles.winHost Bundles.winApp
                  Bundles.winExe eq_refl)).
  right. right. right. split.
  - exists (Bytes.lit "MZ..sha256.."), (Bytes.lit ".."). reflexivity.
  - exists (Bytes.lit "MZ.."), (Bytes.lit "..Integrity.."). reflexivity.
Defined.

(** The third spelling of the restriction marker holds the first, so it
    never decides: on Windows the verdict is that the first or the second
    spelling occurs in the executable, on macOS that the first occurs in
    the main executable or the first or second in the property list. *)
Theorem third_spelling_never_decides
        (fp : Filepath) (h : Host) (appPath : string) :
  occursIn sigOnlyLoadAppFromAsar sigFuseV1OnlyLoadAppFromAsar /\
  (forall exeContent,
      ReadFile h (Detector.exePathOf fp appPath) = ReadOk exeContent ->
      onlyLoadOf (checkAsarIntegrityWindows fp h appPath)
      = (Bytes.Contains exeContent sigOnlyLoadAppFromAsar
         || Bytes.Contains exeContent sigOnlyLoadFromAsar)%bool) /\
  (forall plistContent,
      ReadFile h (Join fp [appPath; "Contents"; "Info.plist"]) = ReadOk plistContent ->
      onlyLoadOf (checkAsarIntegrityMacos fp h appPath)
      = (match macExecutableBytes fp h appPath with
         | Some execContent => Bytes.Contains execContent sigOnlyLoadAppFromAsar
         | None => false
         end
         || Bytes.Contains plistContent sigOnlyLoadAppFromAsar
         || Bytes.Contains plistContent sigOnlyLoadFromAsar)%bool).
Proof.
  assert (Hin : occursIn sigOnlyLoadAppFromAsar sigFuseV1OnlyLoadAppFromAsar).
  { exists (Bytes.lit "FuseV1Options."), []. reflexivity. }
  assert (Hthird : forall content,
             Bytes.Contains content sigOnlyLoadAppFromAsar = false ->
             Bytes.Contains content sigFuseV1OnlyLoadAppFromAsar = false).
  { intros content Hno.
    destruct (Bytes.Contains content sigFuseV1OnlyLoadAppFromAsar) eqn:E;
      [|reflexivity].
    rewrite <- Hno. symmetry. apply Contains_occursIn.
    apply occursIn_trans with sigFuseV1OnlyLoadAppFromAsar;
      [exact Hin | now apply Contains_occursIn]. }
  split; [exact Hin|]. split.
  - intros exeContent Hread. unfold checkAsarIntegrityWindows. rewrite Hread.
    unfold onlyLoadOf; cbn [fst snd anySignature].
    destruct (Bytes.Contains exeContent sigOnlyLoadAppFromAsar) eqn:E1;
      [reflexivity|].
    rewrite (Hthird _ E1).
    destruct (Bytes.Contains exeContent sigOnlyLoadFromAsar); reflexivity.
  - intros plistContent Hread.
    rewrite (checkAsarIntegrityMacos_onlyLoad _ _ _ _ Hread).
    rewrite <- orb_assoc. f_equal.
    unfold restrictionSpellings; cbn [anySignature].
    destruct (Bytes.Contains plistContent sigOnlyLoadAppFromAsar) eqn:E1;
      [reflexivity|].
    rewrite (Hthird _ E1).
    destruct (Bytes.Contains plistContent sigOnlyLoadFromAsar); reflexivity.
Qed.

(** ** The text report *)

Section ReportFacts.
Variable fp : Filepath.

Lemma countLoop_counts (results : list AppResult) :
  forall c,
    countLoop results c
    = mkCounts
        (electronCount c + countIf IsElectron results)
        (asarCount c
         + countIf (fun r => IsElectron r && HasAsarFile r)%bool results)
        (integrityCount c
         + countIf (fun r => IsElectron r && HasAsarFile r && AsarIntegrity r)%bool
                   results)
        (onlyLoadCount c
         + countIf (fun r => IsElectron r && HasAsarFile r && OnlyLoadFromAsar r)%bool
                   results).
Proof.
  unfold countIf.
  induction results as [|r rest IH]; intros [e a i o]; cbn [countLoop filter].
  - cbn. f_equal; lia.
  - rewrite IH.
    destruct (IsElectron r), (HasAsarFile r), (AsarIntegrity r),
      (OnlyLoadFromAsar r);
      cbn [andb electronCount asarCount integrityCount onlyLoadCount List.length];
      f_equal; lia.
Qed.

Lemma countIf_le (f g : AppResult -> bool) (results : list AppResult) :
  (forall r, f r = true -> g r = true) ->
  (0 <= countIf f results <= countIf g results)%Z.
Proof.
  intros Hfg. unfold countIf.
  induction results as [|r rest IH]; cbn [filter]; [cbn; lia|].
  destruct (f r) eqn:Ef.
  - rewrite (Hfg r Ef). cbn [List.length]. lia.
  - destruct (g r); cbn [List.length]; lia.
Qed.

Lemma countIf_ext (f g : AppResult -> bool) (results : list AppResult) :
  (forall r, In r results -> f r = g r) ->
  countIf f results = countIf g results.
Proof.
  intros Hfg. unfold countIf. f_equal. f_equal.
  induction results as [|r rest IH]; [reflexivity|]. cbn [filter].
  rewrite (Hfg r (or_introl eq_refl)), IH; [reflexivity|].
  intros r' Hr'. apply Hfg. now right.
Qed.

Lemma summaryTable_length (results : list AppResult) :
  Z.of_nat (List.length (summaryTable fp results)) = countIf IsElectron results.
Proof.
  unfold countIf. f_equal.
  induction results as [|r rest IH]; [reflexivity|].
  cbn [summaryTable filter]. unfold summaryRow.
  destruct (IsElectron r); cbn [List.length]; now rewrite IH.
Qed.

Lemma detailedListing_headers (results : list AppResult) (showNodeFiles : bool) :
  forall index,
    map (hd "") (detailedListing results showNodeFiles index)
    = map blockHeader (numberedFrom index (filter IsElectron results)).
Proof.
  induction results as [|r rest IH]; intros index; [reflexivity|].
  cbn [detailedListing filter].
  destruct (IsElectron r); cbn [negb numberedFrom map]; [|apply IH].
  now rewrite IH.
Qed.

Lemma detailedListing_In (results : list AppResult) (showNodeFiles : bool)
      (r : AppResult) :
  In r results -> IsElectron r = true ->
  forall index,
    exists i, In (detailBlock i r showNodeFiles)
                 (detailedListing results showNodeFiles index).
Proof.
  intros Hin He. induction results as [|r' rest IH]; [destruct Hin|].
  intros index. cbn [detailedListing].
  destruct Hin as [-> | Hin].
  - rewrite He. exists index. now left.
  - destruct (IsElectron r'); cbn [negb].
    + destruct (IH Hin (index + 1)%Z) as (i & Hi). exists i. now right.
    + apply (IH Hin).
Qed.

Lemma string_length_append (s t : string) :
  String.length (s ++ t)%string = String.length s + String.length t.
Proof.
  induction s as [|c s IH]; cbn; [reflexivity | now rewrite IH].
Qed.

Lemma string_length_substring (n : nat) (s : string) :
  n <= String.length s -> String.length (substring 0 n s) = n.
Proof.
  revert s; induction n as [|n IH]; intros s Hn.
  - destruct s; reflexivity.
  - destruct s as [|c s]; cbn in Hn; [lia|]. cbn. rewrite IH; lia.
Qed.

End ReportFacts.

(** The four counters of the summary count, in this order, the Electron
    results, those of them with the archive, and those of the latter with
    each verdict; so each verdict counter is at most the archive counter,
    which is at most the Electron counter, which is at most the number of
    results.  The Electron counter is also the number of lines of the
    summary table and of blocks of the detailed listing. *)
Theorem summary_counts
        (fp : Filepath) (results : list AppResult) (showNodeFiles : bool)
        (index : Z) :
  let c := summaryCounts results in
  electronCount c = countIf IsElectron results /\
  asarCount c = countIf (fun r => IsElectron r && HasAsarFile r)%bool results /\
  integrityCount c
  = countIf (fun r => IsElectron r && HasAsarFile r && AsarIntegrity r)%bool results /\
  onlyLoadCount c
  = countIf (fun r => IsElectron r && HasAsarFile r && OnlyLoadFromAsar r)%bool
            results /\
  (0 <= integrityCount c <= asarCount c)%Z /\
  (0 <= onlyLoadCount c <= asarCount c)%Z /\
  (asarCount c <= electronCount c <= Z.of_nat (List.length results))%Z /\
  Z.of_nat (List.length (summaryTable fp results)) = electronCount c /\
  Z.of_nat (List.length (detailedListing results showNodeFiles index))
  = electronCount c.
Proof.
  intros c. unfold c, summaryCounts. rewrite countLoop_counts.
  cbn [electronCount asarCount integrityCount onlyLoadCount]. rewrite !Z.add_0_l.
  split; [reflexivity|]. split; [reflexivity|]. split; [reflexivity|].
  split; [reflexivity|].
  split; [|split; [|split; [|split]]].
  - apply (countIf_le (fun r => IsElectron r && HasAsarFile r && AsarIntegrity r)%bool
                      (fun r => IsElectron r && HasAsarFile r)%bool).
    intros r H. now apply andb_true_iff in H as [H _].
  - apply (countIf_le (fun r => IsElectron r && HasAsarFile r && OnlyLoadFromAsar r)%bool
                      (fun r => IsElectron r && HasAsarFile r)%bool).
    intros r H. now apply andb_true_iff in H as [H _].
  - split.
    + apply (countIf_le (fun r => IsElectron r && HasAsarFile r)%bool IsElectron).
      intros r H. now apply andb_true_iff in H as [H _].
    + unfold countIf. apply inj_le. apply filter_length_le.
  - apply summaryTable_length.
  - rewrite <- (length_map (hd "")), detailedListing_headers, length_map.
    unfold countIf. f_equal.
    generalize (filter IsElectron results). intros l. revert index.
    induction l as [|r l IH]; intros index; [reflexivity|].
    cbn [numberedFrom List.length]. now rewrite IH.
Qed.

(** For the results of a scan the guards of the counting loop are
    redundant: each counter is the plain number of results with its flag. *)
Theorem summary_counts_of_scan
        (fp : Filepath) (h : Host) (listNodeFiles : bool) (maxNodeFiles : Z)
        (apps : list string) :
  let results := map (scanApp fp h listNodeFiles maxNodeFiles) apps in
  let c := summaryCounts results in
  electronCount c = countIf IsElectron results /\
  asarCount c = countIf HasAsarFile results /\
  integrityCount c = countIf AsarIntegrity results /\
  onlyLoadCount c = countIf OnlyLoadFromAsar results.
Proof.
  intros results c.
  assert (Hnested : forall r, In r results ->
            (HasAsarFile r = true -> IsElectron r = true) /\
            (AsarIntegrity r = true -> HasAsarFile r = true) /\
            (OnlyLoadFromAsar r = true -> HasAsarFile r = true)).
  { intros r Hr. apply in_map_iff in Hr as (app & <- & _).
    destruct (scanApp_flags_nested fp h listNodeFiles maxNodeFiles app)
      as (H1 & H2 & H3 & _). auto. }
  unfold c, summaryCounts. rewrite countLoop_counts.
  cbn [electronCount asarCount integrityCount onlyLoadCount]. rewrite !Z.add_0_l.
  split; [reflexivity|]. split; [|split]; apply countIf_ext; intros r Hr;
    destruct (Hnested r Hr) as (H1 & H2 & H3);
    destruct (IsElectron r), (HasAsarFile r), (AsarIntegrity r),
      (OnlyLoadFromAsar r); cbn; auto;
    try (now specialize (H1 eq_refl)); try (now specialize (H2 eq_refl));
    try (now specialize (H3 eq_refl)).
Qed.

(** The blocks of the detailed listing are numbered consecutively from the
    starting index over the Electron results, in their order; a result that
    is not an Electron application takes no number. *)
Theorem detailedListing_numbering
        (results : list AppResult) (showNodeFiles : bool) (index : Z) :
  map (hd "") (detailedListing results showNodeFiles index)
  = map blockHeader (numberedFrom index (filter IsElectron results)) /\
  (forall k numbered,
      nth_error (numberedFrom index (filter IsElectron results)) k = Some numbered ->
      fst numbered = (index + Z.of_nat k)%Z /\
      nth_error (filter IsElectron results) k = Some (snd numbered)).
Proof.
  split; [apply detailedListing_headers|].
  generalize (filter IsElectron results). intros l. revert index.
  induction l as [|r l IH]; intros index k numbered Hk.
  - destruct k; discriminate.
  - destruct k as [|k]; cbn in Hk.
    + injection Hk as <-. cbn. split; [lia | reflexivity].
    + apply IH in Hk as [Hi Hn]. cbn [nth_error]. split; [lia | exact Hn].
Qed.

(** No diagnostic of a scan is lost in the text report: a result with a
    diagnostic is an Electron application with the archive, so its block of
    the detailed listing is printed and holds the error line. *)
Theorem diagnostic_is_printed
        (fp : Filepath) (h : Host) (listNodeFiles : bool) (maxNodeFiles : Z)
        (apps : list string) (results : list AppResult) (showNodeFiles : bool)
        (r : AppResult) :
  scanResults fp h listNodeFiles maxNodeFiles apps = Some results ->
  In r results ->
  IntegrityError r <> "" ->
  exists i,
    In (detailBlock i r showNodeFiles) (detailedListing results showNodeFiles 1) /\
    In ("  Error: " ++ IntegrityError r ++ nl)%string
       (detailBlock i r showNodeFiles).
Proof.
  unfold scanResults. intros Hres Hin Herr.
  assert (Hos : GOOS h = darwin \/ GOOS h = windows).
  { destruct (GOOS h); [now left | now right | discriminate]. }
  assert (Hmap : results = map (scanApp fp h listNodeFiles maxNodeFiles) apps).
  { destruct (GOOS h); congruence. }
  assert (Hflags : HasAsarFile r = true /\ IsElectron r = true).
  { subst results. apply in_map_iff in Hin as (app & <- & _).
    destruct (scanApp_fields fp h listNodeFiles maxNodeFiles app)
      as (_ & Hie & _ & Ha & _ & _ & He & _).
    rewrite He in Herr. rewrite Hie, Ha.
    destruct (CheckAsarIntegrityForApp_diagnostic fp h app Hos) as (Hd & _).
    apply Hd in Herr as (Hasar & _). split; [exact Hasar|].
    destruct (IsElectron (CheckAsarIntegrityForApp fp h app)) eqn:E;
      [reflexivity|].
    destruct (CheckAsarIntegrityForApp_not_electron fp h app E) as (_ & Hf & _).
    congruence. }
  destruct Hflags as [Hasar He].
  destruct (detailedListing_In results showNodeFiles r Hin He 1%Z) as (i & Hi).
  exists i. split; [exact Hi|].
  unfold detailBlock. rewrite Hasar.
  apply String.eqb_neq in Herr. rewrite Herr. cbn [negb].
  apply in_or_app. right. apply in_or_app. left.
  apply in_or_app. right. now left.
Qed.

Lemma diagnostic_is_printed_witness :
  exists r,
    scanResults Sample.slash Bundles.macHostUnreadable true 5 [Bundles.macApp]
    = Some [r] /\
    In ("  Error: error reading Info.plist: open /Applications/Demo.app/Contents/Info.plist: permission denied"
        ++ nl)%string
       (detailBlock 1 r true).
Proof.
  eexists. split; [reflexivity|].
  destruct (diagnostic_is_printed
              Sample.slash Bundles.macHostUnreadable true 5 [Bundles.macApp]
              _ true _ eq_refl (or_introl eq_refl)) as (i & Hi & Hline).
  - discriminate.
  - destruct Hi as [Hi | []].
    rewrite <- Hi in Hline. exact Hline.
Defined.

(** A line of the summary table: the application column never exceeds 28
    bytes, the version column is never empty, and the two verdict columns
    show [N/A] exactly when the archive column shows [No]. *)
Theorem summaryRow_columns (fp : Filepath) (result : AppResult) (row : SummaryRow) :
  summaryRow fp result = Some row ->
  String.length (colApplication row) <= 28 /\
  colVersion row <> "" /\
  (colAsarFile row = "Yes" \/ colAsarFile row = "No") /\
  (colIntegrity row = "N/A" <-> colAsarFile row = "No") /\
  (colOnlyLoad row = "N/A" <-> colAsarFile row = "No").
Proof.
  unfold summaryRow. destruct (IsElectron result); [|discriminate].
  intros [= <-]. cbn [colApplication colVersion colAsarFile colIntegrity colOnlyLoad].
  split; [|split; [|split; [|split]]].
  - destruct (28 <? String.length (Base fp (Path result)))%nat eqn:E.
    + apply Nat.ltb_lt in E.
      rewrite string_length_append, string_length_substring; [cbn; lia | lia].
    + apply Nat.ltb_ge in E. exact E.
  - destruct (Version result =? "")%string eqn:E1; [discriminate|].
    destruct (Version result =? "unknown")%string eqn:E2; [discriminate|].
    cbn [orb].
    destruct (Version result =? "detected")%string; [discriminate|].
    now apply String.eqb_neq in E1.
  - destruct (HasAsarFile result); auto.
  - destruct (HasAsarFile result), (AsarIntegrity result);
      split; intros H; try reflexivity; discriminate.
  - destruct (HasAsarFile result), (OnlyLoadFromAsar result);
      split; intros H; try reflexivity; discriminate.
Qed.

Lemma summaryRow_columns_witness :
  exists row,
    summaryRow Sample.slash
               (mkAppResult "/Applications/An application with a very long name.app"
                            true "" false false false [] "")
    = Some row /\
    colApplication row = "An application with a ver..." /\
    String.length (colApplication row) <= 28 /\
    colVersion row <> "".
Proof.
  eexists. split; [reflexivity|]. split; [reflexivity|].
  destruct (summaryRow_columns
              Sample.slash
              (mkAppResult "/Applications/An application with a very long name.app"
                           true "" false false false [] "")
              _ eq_refl) as (Hlen & Hv & _).
  split; [exact Hlen | exact Hv].
Defined.

(** On Windows an Electron result without the archive was classified by
    [electron.asar], provided [filepath.Join] gives the archive rule of the
    classifier and the archive check the same path (the one joins
    [resources] first, the other joins all three elements at once). *)
Theorem windows_electron_without_archive
        (fp : Filepath) (h : Host) (appPath : string) :
  GOOS h = windows ->
  let dirPath := Dir fp (Detector.exePathOf fp appPath) in
  Join fp [Join fp [dirPath; "resources"]; "app.asar"]
  = Join fp [dirPath; "resources"; "app.asar"] ->
  IsElectron (CheckAsarIntegrityForApp fp h appPath) = true ->
  HasAsarFile (CheckAsarIntegrityForApp fp h appPath) = false ->
  Stat h (Join fp [Join fp [dirPath; "resources"]; "electron.asar"]) = StatNil /\
  Stat h (Join fp [dirPath; "resources"; "app.asar"]) <> StatNil.
Proof.
  intros Hos dirPath Hjoin. unfold CheckAsarIntegrityForApp, Detector.IsElectronApp,
    Detector.HasAsarFile, Detector.GetAsarPath.
  rewrite Hos. unfold Detector.isElectronAppWindows.
  fold dirPath. rewrite Hjoin.
  destruct (Stat h (Detector.exePathOf fp appPath)); try discriminate;
    (destruct (Stat h (Join fp [dirPath; "resources"])); try discriminate;
     (destruct (Stat h (Join fp [dirPath; "resources"; "app.asar"])) eqn:Easar;
      destruct (Stat h (Join fp [Join fp [dirPath; "resources"]; "electron.asar"]))
        eqn:Eel;
      cbn [negb IsElectron HasAsarFile setIsElectron setVersion setHasAsarFile];
      try discriminate;
      try (intros _ _; split; [reflexivity | discriminate]);
      try (break_check; discriminate))).
Qed.

Lemma windows_electron_without_archive_witness :
  let host :=
    Sample.host windows
      [(Bundles.winApp, Bytes.lit "MZ Electron/1.8.4 Chrome")]
      ["C:\Apps\Demo\resources"; "C:\Apps\Demo\resources\electron.asar"] [] in
  CheckAsarIntegrityForApp Sample.backslash host Bundles.winApp
  = mkAppResult Bundles.winApp true "1.8.4" false false false [] "" /\
  Stat host "C:\Apps\Demo\resources\electron.asar" = StatNil.
Proof.
  intros host. split; [reflexivity|].
  exact (proj1 (windows_electron_without_archive
                  Sample.backslash host Bundles.winApp
                  eq_refl eq_refl eq_refl eq_refl)).
Defined.

(** ** Closed instances *)

Lemma ScanForElectronApps_never_fails_witness :
  exists results,
    mainResults Sample.backslash ScanSamples.winScanHost ScanSamples.getenv true 0
    = Some results /\
    map Path results = ["C:\Program Files\Demo\Demo.exe"].
Proof.
  eexists. split; [reflexivity|].
  rewrite (proj2 (proj2 (ScanForElectronApps_never_fails
                           Sample.backslash ScanSamples.winScanHost
                           ScanSamples.getenv true 0)) _ eq_refl).
  reflexivity.
Defined.

Lemma result_flags_nested_witness :
  let r := scanApp Sample.slash Bundles.macHost true 5 Bundles.macApp in
  AsarIntegrity r = true /\ HasAsarFile r = true /\ IsElectron r = true.
Proof.
  intros r.
  destruct (result_flags_nested Sample.slash Bundles.macHost true 5 Bundles.macApp)
    as (Hasar & Hint & _).
  fold r in Hasar, Hint.
  assert (Hi : AsarIntegrity r = true) by reflexivity.
  split; [exact Hi|]. split; [exact (Hint Hi) | exact (Hasar (Hint Hi))].
Defined.

Lemma third_spelling_never_decides_witness :
  ReadFile Bundles.winHost (Detector.exePathOf Sample.backslash Bundles.winApp)
  = ReadOk Bundles.winExe /\
  onlyLoadOf (checkAsarIntegrityWindows Sample.backslash Bundles.winHost
                                        Bundles.winApp) = false.
Proof.
  split; [reflexivity|].
  rewrite (proj1 (proj2 (third_spelling_never_decides
                           Sample.backslash Bundles.winHost Bundles.winApp))
                 Bundles.winExe eq_refl).
  reflexivity.
Defined.

Lemma detailedListing_numbering_witness :
  let results :=
    [mkAppResult "a" true "1" false false false [] "";
     mkAppResult "b" false "" false false false [] "";
     mkAppResult "c" true "2" false false false [] ""] in
  nth_error (numberedFrom 1 (filter IsElectron results)) 1
  = Some (2%Z, mkAppResult "c" true "2" false false false [] "") /\
  map (hd "") (detailedListing results true 1)
  = [blockHeader (1%Z, mkAppResult "a" true "1" false false false [] "");
     blockHeader (2%Z, mkAppResult "c" true "2" false false false [] "")].
Proof.
  intros results. split; [reflexivity|].
  rewrite (proj1 (detailedListing_numbering results true 1)).
  reflexivity.
Defined.
